(** * irrpt-ng: the IRR whois client ([lib/IRRClient.py])

    A shallow embedding of [RouteSet] and [IRRClient] and the properties
    of the response codec, the cache and the query orchestration.

    Conventions.
    - Python [str] values are [string]s of 8-bit characters (the module is
      Python 2 code: [collections.MutableSet], [sendall] on a [str]).
    - The connection is the pair ([self.s], [self.f]): what was written with
      [sendall], and the lines [readline] will still deliver.  A stream that
      is exhausted is at end of file: [readline] then returns the empty
      string, as Python's file objects do.
    - A method is a function from the client before the call to an outcome
      and the client after it.  An outcome is a returned value, a raised
      exception, or [Hang] for a call that never returns. *)

From Stdlib Require Import ZArith String Ascii List Bool Lia DecimalString.
From stdpp Require Import base option gmap strings.

Import ListNotations.
Open Scope string_scope.
Open Scope Z_scope.

(** ** Python string primitives *)

Module Str.

(** [str.isspace] on one 8-bit character: space, \t, \n, \v, \f, \r. *)
Definition is_space (a : ascii) : bool :=
  let n := nat_of_ascii a in
  (Nat.eqb n 32 || (Nat.leb 9 n && Nat.leb n 13))%bool.

(** [len(s)] *)
Definition len (s : string) : Z := Z.of_nat (String.length s).

(** [s.lstrip()] *)
Fixpoint lstrip (s : string) : string :=
  match s with
  | String a r => if is_space a then lstrip r else s
  | EmptyString => EmptyString
  end.

(** [s.rstrip()] *)
Fixpoint rstrip (s : string) : string :=
  match s with
  | String a r =>
      match rstrip r with
      | EmptyString => if is_space a then EmptyString else String a EmptyString
      | r' => String a r'
      end
  | EmptyString => EmptyString
  end.

(** [s.strip()] *)
Definition strip (s : string) : string := lstrip (rstrip s).

(** [s.lstrip(chars)]: drops leading characters that occur in [chars]. *)
Fixpoint char_in (a : ascii) (s : string) : bool :=
  match s with
  | String b r => (Ascii.eqb a b || char_in a r)%bool
  | EmptyString => false
  end.

Fixpoint lstrip_chars (chars s : string) : string :=
  match s with
  | String a r => if char_in a chars then lstrip_chars chars r else s
  | EmptyString => EmptyString
  end.

(** [sub in s] for strings *)
Fixpoint str_in (sub s : string) : bool :=
  (String.prefix sub s ||
   match s with
   | String _ r => str_in sub r
   | EmptyString => false
   end)%bool.

(** [s.upper()] *)
Definition upper_char (a : ascii) : ascii :=
  let n := nat_of_ascii a in
  if (Nat.leb 97 n && Nat.leb n 122)%bool then ascii_of_nat (n - 32) else a.

Fixpoint upper (s : string) : string :=
  match s with
  | String a r => String (upper_char a) (upper r)
  | EmptyString => EmptyString
  end.

(** [s.split()]: the maximal runs of non-whitespace characters.
    [split_go s] is the run [s] starts with, and the runs after it. *)
Definition push_token (t : string) (ts : list string) : list string :=
  match t with
  | EmptyString => ts
  | _ => t :: ts
  end.

Fixpoint split_go (s : string) : string * list string :=
  match s with
  | String a r =>
      let '(t, ts) := split_go r in
      if is_space a then (EmptyString, push_token t ts) else (String a t, ts)
  | EmptyString => (EmptyString, [])
  end.

Definition split (s : string) : list string :=
  let '(t, ts) := split_go s in push_token t ts.

(** [int(s)] for a string, base 10: optional surrounding whitespace, an
    optional sign, then one or more decimal digits.  [None] stands for
    [ValueError]. *)
Definition digit (a : ascii) : option Z :=
  let n := nat_of_ascii a in
  if (Nat.leb 48 n && Nat.leb n 57)%bool then Some (Z.of_nat (n - 48)) else None.

Fixpoint digits (acc : Z) (s : string) : option Z :=
  match s with
  | String a r =>
      match digit a with
      | Some d => digits (10 * acc + d) r
      | None => None
      end
  | EmptyString => Some acc
  end.

Definition unsigned (s : string) : option Z :=
  match s with
  | EmptyString => None
  | _ => digits 0 s
  end.

Definition int (s : string) : option Z :=
  match strip s with
  | String "-" r => Z.opp <$> unsigned r
  | String "+" r => unsigned r
  | t => unsigned t
  end.

(** ["%s" % n] for an integer [n] *)
Definition of_int (n : Z) : string := NilEmpty.string_of_int (Z.to_int n).

(** [bool(s)] *)
Definition truthy (s : string) : bool :=
  match s with
  | EmptyString => false
  | _ => true
  end.

End Str.

(** The line terminator, and a line as [readline] delivers it. *)
Definition LF : string := String (ascii_of_nat 10) EmptyString.
Definition line (s : string) : string := s +:+ LF.

(** ** Outcomes of a call *)

Inductive exn : Type :=
| TypeError (msg : string)
| ValueError
| AttributeError
| IndexError.

Inductive result (A : Type) : Type :=
| Ret (a : A)
| Raise (e : exn)
| Hang.
Arguments Ret {A} a.
Arguments Raise {A} e.
Arguments Hang {A}.

#[global] Instance result_fmap : FMap result := fun A B g r =>
  match r with
  | Ret a => Ret (g a)
  | Raise e => Raise e
  | Hang => Hang
  end.

Definition result_bind {A B} (r : result A) (k : A -> result B) : result B :=
  match r with
  | Ret a => k a
  | Raise e => Raise e
  | Hang => Hang
  end.

(** ** The IPy library, as [RouteSet] uses it

    [IP] objects carry the address family, the address as an integer and
    the prefix length; two of them are equal when all three agree.  The
    parser and the aggregating set are the library's and stay abstract. *)

Record IP : Type := { version : Z; ip : Z; prefixlen : Z }.

#[global] Instance IP_eq_dec : EqDecision IP.
Proof. solve_decision. Defined.

(** What reaches [RouteSet.add], [discard] and [__contains__]: a token of a
    response, an integer, or an [IP] object. *)
Inductive item : Type :=
| ItemStr (t : string)
| ItemInt (n : Z)
| ItemIP (a : IP).

Class IPy : Type := {
  (** [IP(item, make_net=True)]; [None] when the literal is refused
      ([ValueError]) *)
  IP_make_net : item -> option IP;
  (** [bool(ip)] *)
  IP_bool : IP -> bool;
  (** [IPSet.add(ip)] on the prefix list: append and aggregate *)
  IPSet_add : list IP -> IP -> list IP;
  (** [IPSet.discard(ip)] *)
  IPSet_discard : list IP -> IP -> list IP;
  (** [x in ipset], with [x] as it was handed in *)
  IPSet_contains : list IP -> item -> result bool
}.

(** ** RouteSet *)

(** [ip4] and [ip6] are both [IPSet]s ([aggregated = true], the prefix lists
    are kept) or both Python [set]s of [IP] objects, kept here in insertion
    order. *)
Record RouteSet : Type := {
  aggregated : bool;
  ip4 : list IP;
  ip6 : list IP
}.

Module PySet.
(** Membership in a [set] of [IP] objects.  A string or an integer is
    never equal to an [IP] object. *)
Definition contains (l : list IP) (x : item) : bool :=
  match x with
  | ItemIP a => bool_decide (a ∈ l)
  | _ => false
  end.

Definition add (l : list IP) (a : IP) : list IP :=
  if bool_decide (a ∈ l) then l else l ++ [a].

Definition discard (l : list IP) (a : IP) : list IP :=
  filter (fun b => b <> a) l.
End PySet.

Section RouteSet.
Context {L : IPy}.

Definition bucket_add (agg : bool) (l : list IP) (a : IP) : list IP :=
  if agg then IPSet_add l a else PySet.add l a.

Definition bucket_discard (agg : bool) (l : list IP) (a : IP) : list IP :=
  if agg then IPSet_discard l a else PySet.discard l a.

Definition bucket_contains (agg : bool) (l : list IP) (x : item) : result bool :=
  if agg then IPSet_contains l x else Ret (PySet.contains l x).

(** [RouteSet.add] *)
Definition RouteSet_add (rs : RouteSet) (x : item) : result RouteSet :=
  match IP_make_net x with
  | None => Raise ValueError
  | Some a =>
      if version a =? 4 then
        Ret {| aggregated := aggregated rs;
               ip4 := bucket_add (aggregated rs) (ip4 rs) a;
               ip6 := ip6 rs |}
      else if version a =? 6 then
        Ret {| aggregated := aggregated rs;
               ip4 := ip4 rs;
               ip6 := bucket_add (aggregated rs) (ip6 rs) a |}
      else Ret rs
  end.

(** [for r in items: routes.add(r)] *)
Fixpoint RouteSet_add_all (rs : RouteSet) (items : list item) : result RouteSet :=
  match items with
  | [] => Ret rs
  | x :: xs => result_bind (RouteSet_add rs x) (fun rs' => RouteSet_add_all rs' xs)
  end.

(** [RouteSet.__init__] *)
Definition RouteSet_init (routes : list item) (aggregate : bool) : result RouteSet :=
  RouteSet_add_all {| aggregated := aggregate; ip4 := []; ip6 := [] |} routes.

(** [RouteSet(aggregate=aggregate)] *)
Definition RouteSet_new (aggregate : bool) : RouteSet :=
  {| aggregated := aggregate; ip4 := []; ip6 := [] |}.

(** [RouteSet.__len__] *)
Definition RouteSet_len (rs : RouteSet) : nat :=
  (length (ip4 rs) + length (ip6 rs))%nat.

(** [bool(routes)]: a container is true when its length is not 0. *)
Definition RouteSet_bool (rs : RouteSet) : bool :=
  negb (Nat.eqb (RouteSet_len rs) 0).

(** [RouteSet.__iter__] *)
Definition RouteSet_iter (rs : RouteSet) : list IP := ip4 rs ++ ip6 rs.

(** [RouteSet.__contains__]: [item in self.ip4 or item in self.ip6] *)
Definition RouteSet_contains (rs : RouteSet) (x : item) : result bool :=
  result_bind (bucket_contains (aggregated rs) (ip4 rs) x) (fun b =>
    if b then Ret true else bucket_contains (aggregated rs) (ip6 rs) x).

(** [RouteSet.discard] *)
Definition RouteSet_discard (rs : RouteSet) (x : item) : result RouteSet :=
  match IP_make_net x with
  | None => Raise ValueError
  | Some a =>
      Ret {| aggregated := aggregated rs;
             ip4 := bucket_discard (aggregated rs) (ip4 rs) a;
             ip6 := bucket_discard (aggregated rs) (ip6 rs) a |}
  end.
End RouteSet.

(** ** The client *)

(** One constructor per logging call of the module, with its arguments. *)
Inductive logrec : Type :=
| Debug_connecting (host : string) (port : Z)
| Error_connection (msg : string)
| Error_unable_to_connect (host : string) (port : Z)
| Error_write (msg : string)
| Warning_key_not_found (query : option string)
| Warning_query_failed (text : string)
| Error_parse_length
| Error_length_mismatch
| Debug_fetching_routes (name : string)
| Warning_nothing_returned (name : string)
| Debug_is_route_set
| Debug_retrieved_routes (n : nat)
| Debug_is_as_set
| Debug_retrieved_from_asns (n : nat) (asns : nat)
| Debug_fetching_members (name : string) (recursive : bool).

(** Keys of [self._cache]: integers for origins, strings for sets. *)
Inductive key : Type :=
| KInt (n : Z)
| KStr (name : string).

#[global] Instance key_eq_dec : EqDecision key.
Proof. solve_decision. Defined.

#[global] Instance key_countable : Countable key.
Proof.
  refine (inj_countable'
            (fun k => match k with KInt n => inl n | KStr t => inr t end)
            (fun x => match x with inl n => KInt n | inr t => KStr t end) _).
  intros []; reflexivity.
Defined.

(** [self.s]: what [sendall] has written so far, and the [socket.error] it
    fails with, if it does. *)
Record socket : Type := {
  sent : list string;
  write_error : option string
}.

Record IRRClient : Type := {
  host : string;
  port : Z;
  caching : bool;
  aggregate : bool;
  ipv6 : bool;
  _cache : gmap key RouteSet;
  _ascache : gmap string (list Z);
  s : option socket;
  f : option (list string);
  lastcommand : option string;
  log : list logrec
}.

(** [IRRClient.__init__] *)
Definition IRRClient_init (host : string) (port : Z) (cache aggregate ipv6 : bool)
  : IRRClient :=
  {| host := host; port := port; caching := cache; aggregate := aggregate;
     ipv6 := true;
     _cache := ∅; _ascache := ∅;
     s := None; f := None; lastcommand := None; log := [] |}.

Definition with_s (v : option socket) (c : IRRClient) : IRRClient :=
  {| host := host c; port := port c; caching := caching c; aggregate := aggregate c;
     ipv6 := ipv6 c; _cache := _cache c; _ascache := _ascache c;
     s := v; f := f c; lastcommand := lastcommand c; log := log c |}.

Definition with_f (v : option (list string)) (c : IRRClient) : IRRClient :=
  {| host := host c; port := port c; caching := caching c; aggregate := aggregate c;
     ipv6 := ipv6 c; _cache := _cache c; _ascache := _ascache c;
     s := s c; f := v; lastcommand := lastcommand c; log := log c |}.

Definition with_lastcommand (v : option string) (c : IRRClient) : IRRClient :=
  {| host := host c; port := port c; caching := caching c; aggregate := aggregate c;
     ipv6 := ipv6 c; _cache := _cache c; _ascache := _ascache c;
     s := s c; f := f c; lastcommand := v; log := log c |}.

Definition with_cache (v : gmap key RouteSet) (c : IRRClient) : IRRClient :=
  {| host := host c; port := port c; caching := caching c; aggregate := aggregate c;
     ipv6 := ipv6 c; _cache := v; _ascache := _ascache c;
     s := s c; f := f c; lastcommand := lastcommand c; log := log c |}.

Definition with_log (v : list logrec) (c : IRRClient) : IRRClient :=
  {| host := host c; port := port c; caching := caching c; aggregate := aggregate c;
     ipv6 := ipv6 c; _cache := _cache c; _ascache := _ascache c;
     s := s c; f := f c; lastcommand := lastcommand c; log := v |}.

(** The commands written to the connection so far. *)
Definition commands (c : IRRClient) : list string :=
  match s c with
  | Some sk => sent sk
  | None => []
  end.

(** The lines the connection will still deliver. *)
Definition pending (c : IRRClient) : list string :=
  match f c with
  | Some ls => ls
  | None => []
  end.

(** *** Methods as state transformers *)

Definition M (A : Type) : Type := IRRClient -> result A * IRRClient.

Definition ret {A} (a : A) : M A := fun c => (Ret a, c).
Definition raise {A} (e : exn) : M A := fun c => (Raise e, c).
Definition self : M IRRClient := fun c => (Ret c, c).
Definition lift {A} (r : result A) : M A := fun c => (r, c).

Definition bind {A B} (m : M A) (k : A -> M B) : M B := fun c =>
  match m c with
  | (Ret a, c') => k a c'
  | (Raise e, c') => (Raise e, c')
  | (Hang, c') => (Hang, c')
  end.

Declare Scope py_scope.
Delimit Scope py_scope with py.
Notation "x <- m ;; k" := (bind m (fun x => k))
  (at level 100, m at next level, right associativity) : py_scope.
Notation "m ;; k" := (bind m (fun _ => k))
  (at level 100, right associativity) : py_scope.
Open Scope py_scope.

Definition logging (r : logrec) : M unit := fun c =>
  (Ret tt, with_log (log c ++ [r]) c).

(** [socket.create_connection(sa)], as the network answers it: a connection
    with the lines the server will send, or [socket.error]. *)
Inductive create_connection : Type :=
| Connected (write_error : option string) (stream : list string)
| SocketError (msg : string).

(** [IRRClient._send] *)
Definition _send (output : string) : M bool := fun c =>
  let c := with_lastcommand (Some (Str.rstrip output)) c in
  match s c with
  | None => (Raise AttributeError, c)
  | Some sk =>
      match write_error sk with
      | Some msg => (Ret false, with_log (log c ++ [Error_write msg]) c)
      | None =>
          (Ret true,
           with_s (Some {| sent := sent sk ++ [output]; write_error := None |}) c)
      end
  end.

(** [IRRClient._multi] *)
Definition _multi : M bool :=
  _send (line "!!") ;; ret true.

(** [IRRClient._readline] *)
Definition _readline : M string := fun c =>
  match f c with
  | None => (Raise AttributeError, c)
  | Some [] => (Ret EmptyString, c)
  | Some (l :: ls) => (Ret l, with_f (Some ls) c)
  end.

(** What [_response] returns: [True], [False], or the body. *)
Inductive response : Type :=
| RBool (b : bool)
| RStr (body : string).

(** [bool(response)] *)
Definition truthy (r : response) : bool :=
  match r with
  | RBool b => b
  | RStr body => Str.truthy body
  end.

(** [while len(data) < datalen: data = data + self._readline()], run on the
    lines still to come.  At end of file [readline] keeps returning the
    empty string, and the loop does not end: [None]. *)
Fixpoint read_data (datalen : Z) (data : string) (lines : list string)
  : option (string * list string) :=
  if Str.len data <? datalen then
    match lines with
    | l :: ls => read_data datalen (data +:+ l) ls
    | [] => None
    end
  else Some (data, lines).

Definition _read_body (datalen : Z) : M string := fun c =>
  if Str.len EmptyString <? datalen then
    match f c with
    | None => (Raise AttributeError, c)
    | Some lines =>
        match read_data datalen EmptyString lines with
        | Some (data, rest) => (Ret data, with_f (Some rest) c)
        | None => (Hang, with_f (Some []) c)
        end
    end
  else (Ret EmptyString, c).

(** [IRRClient._response] *)
Definition _response : M response :=
  l <- _readline ;;
  let header := Str.rstrip l in
  match header with
  | EmptyString => raise IndexError
  | String code rest =>
      if Ascii.eqb code "C" then ret (RBool true)
      else if Ascii.eqb code "D" then
        c <- self ;;
        logging (Warning_key_not_found (lastcommand c)) ;;
        ret (RBool false)
      else if Ascii.eqb code "E" then ret (RBool true)
      else if Ascii.eqb code "F" then
        logging (Warning_query_failed rest) ;;
        ret (RBool false)
      else if Ascii.eqb code "A" then
        match Str.int rest with
        | None => raise ValueError
        | Some datalen =>
            data <- _read_body datalen ;;
            (if Str.len data =? datalen then ret tt
             else logging Error_length_mismatch) ;;
            footer <- _readline ;;
            ret (RStr (Str.rstrip data))
        end
      else
        logging Error_parse_length ;;
        ret (RBool false)
  end.

(** [IRRClient._identify] *)
Definition _identify : M bool :=
  _send (line "!nirrpt-ng") ;;
  _response ;;
  ret true.

(** [IRRClient.connect]; [true] stands for the client itself, which the
    method returns on success. *)
Definition connect (net : create_connection) : M bool :=
  c <- self ;;
  logging (Debug_connecting (host c) (port c)) ;;
  match net with
  | Connected we stream =>
      (fun c => (Ret tt, with_s (Some {| sent := []; write_error := we |}) c)) ;;
      (fun c => (Ret tt, with_f (Some stream) c)) ;;
      _multi ;;
      _identify ;;
      ret true
  | SocketError msg =>
      c <- self ;;
      match s c with
      | None => raise AttributeError
      | Some _ =>
          (fun c => (Ret tt, with_s None c)) ;;
          logging (Error_connection msg) ;;
          logging (Error_unable_to_connect (host c) (port c)) ;;
          ret false
      end
  end.

(** [IRRClient.set_sources]; [None] stands for the [False] it returns. *)
Definition set_sources (sources : string) : M (option (list string)) :=
  _send ("!s-" +:+ sources +:+ LF) ;;
  results <- _response ;;
  if negb (truthy results) then ret None
  else
    match results with
    | RStr body => ret (Some (Str.split body))
    | RBool _ => raise AttributeError
    end.

(** [IRRClient.get_sources] *)
Definition get_sources : M response :=
  _send (line "!s-lc") ;;
  results <- _response ;;
  if negb (truthy results) then ret (RBool false)
  else ret results.

(** [IRRClient._is_cached] *)
Definition _is_cached (c : IRRClient) (origin : key) : bool :=
  caching c && bool_decide (is_Some (_cache c !! origin)).

(** [IRRClient._get_cache]; [None] stands for the [False] it returns. *)
Definition _get_cache (c : IRRClient) (k : key) : option RouteSet :=
  if caching c && bool_decide (is_Some (_cache c !! k)) then _cache c !! k
  else None.

(** [IRRClient._set_cache] *)
Definition _set_cache (k : key) (routes : RouteSet) : M unit := fun c =>
  if caching c then (Ret tt, with_cache (<[k := routes]> (_cache c)) c)
  else (Ret tt, c).

(** A Python value handed in as [origin]. *)
Inductive pyval : Type :=
| VInt (n : Z)
| VStr (t : string)
| VNone.

(** [int(origin)]; [None] when it raises. *)
Definition int_of (v : pyval) : option Z :=
  match v with
  | VInt n => Some n
  | VStr t => Str.int t
  | VNone => None
  end.

(** [tuple(int(asn.lstrip("AS")) for asn in tokens)]; [None] when one of
    the conversions raises [ValueError]. *)
Fixpoint autnums_of (tokens : list string) : option (list Z) :=
  match tokens with
  | [] => Some []
  | asn :: rest =>
      match Str.int (Str.lstrip_chars "AS" asn) with
      | None => None
      | Some n =>
          match autnums_of rest with
          | None => None
          | Some ns => Some (n :: ns)
          end
      end
  end.

(** The two kinds of object [get_data_by_set] tells apart. *)
Inductive obj_type : Type := as_set | route_set.

(** [obj_type] as [get_data_by_set] computes it from the uppercased
    response. *)
Definition classify (response : string) : obj_type :=
  if (Str.char_in ":" response || Str.char_in "." response)
     && negb (Str.str_in "AS" response)
  then route_set else as_set.

(** What [get_data_by_set] returns: the pair, or what [_get_cache] gave. *)
Inductive set_data : Type :=
| Pair (routes : RouteSet) (autnums : list Z)
| Bare (cached : option RouteSet).

Section Queries.
Context {L : IPy}.

(** [IRRClient.get_routes_by_origin]; [None] stands for the [False] that
    [_get_cache] may return. *)
Definition get_routes_by_origin (origin : pyval) : M (option RouteSet) :=
  match int_of origin with
  | None => raise (TypeError "origin must be convertable to integer")
  | Some origin =>
      c <- self ;;
      if _is_cached c (KInt origin) then ret (_get_cache c (KInt origin))
      else
        let routes := RouteSet_new (aggregate c) in
        _send ("!gAS" +:+ Str.of_int origin +:+ LF) ;;
        response <- _response ;;
        routes <-
          (if truthy response then
             match response with
             | RStr body =>
                 lift (RouteSet_add_all routes (map ItemStr (Str.split body)))
             | RBool _ => raise AttributeError
             end
           else ret routes) ;;
        routes <-
          (if ipv6 c then
             _send ("!6AS" +:+ Str.of_int origin +:+ LF) ;;
             response <- _response ;;
             if truthy response then
               match response with
               | RStr body =>
                   lift (RouteSet_add_all routes (map ItemStr (Str.split body)))
               | RBool _ => raise AttributeError
               end
             else ret routes
           else ret routes) ;;
        _set_cache (KInt origin) routes ;;
        ret (Some routes)
  end.

(** The as-set loop of [get_data_by_set]:
    [for asn in autnums: for r in self.get_routes_by_origin(asn):
       if r: routes.add(r)] *)
Fixpoint resolve_autnums (autnums : list Z) (routes : RouteSet) : M RouteSet :=
  match autnums with
  | [] => ret routes
  | asn :: rest =>
      found <- get_routes_by_origin (VInt asn) ;;
      match found with
      | None => raise (TypeError "'bool' object is not iterable")
      | Some rs =>
          routes <-
            lift (RouteSet_add_all routes
                    (map ItemIP (filter (fun r => IP_bool r = true) (RouteSet_iter rs)))) ;;
          resolve_autnums rest routes
      end
  end.

(** [IRRClient.get_data_by_set], from [if not response] on (lines 218 to
    252): what is made of the response to the members query.  [routes] is
    the empty [RouteSet] the method has created. *)
Definition data_of_response (s : string) (routes : RouteSet) (response : response)
  : M set_data :=
  if negb (truthy response) then ret (Pair routes [])
  else
    match response with
    | RBool _ => raise AttributeError
    | RStr body =>
        let response := Str.upper body in
        match autnums_of (Str.split response) with
        | None => raise ValueError
        | Some autnums =>
            match autnums with
            | [] =>
                logging (Warning_nothing_returned s) ;;
                ret (Pair routes [])
            | _ =>
                match classify response with
                | route_set =>
                    logging Debug_is_route_set ;;
                    routes <- lift (RouteSet_add_all routes (map ItemInt autnums)) ;;
                    (if RouteSet_bool routes then _set_cache (KStr s) routes
                     else ret tt) ;;
                    logging (Debug_retrieved_routes (RouteSet_len routes)) ;;
                    ret (Pair routes autnums)
                | as_set =>
                    logging Debug_is_as_set ;;
                    routes <- resolve_autnums autnums routes ;;
                    logging (Debug_retrieved_from_asns (RouteSet_len routes)
                               (length autnums)) ;;
                    ret (Pair routes autnums)
                end
            end
        end
    end.

(** [IRRClient.get_data_by_set], up to the response (lines 210 to 216),
    then [data_of_response]. *)
Definition get_data_by_set (s : string) : M set_data :=
  c <- self ;;
  if _is_cached c (KStr s) then ret (Bare (_get_cache c (KStr s)))
  else
    logging (Debug_fetching_routes s) ;;
    let routes := RouteSet_new (aggregate c) in
    _send ("!i" +:+ s +:+ ",1" +:+ LF) ;;
    response <- _response ;;
    data_of_response s routes response.

End Queries.

(** [IRRClient.get_members_by_set]; [None] stands for [False].  The tuple
    holds each token once; Python leaves its order open, here it is the
    order of the last occurrences. *)
Definition get_members_by_set (s : string) (recursive : bool)
  : M (option (list string)) :=
  logging (Debug_fetching_members s recursive) ;;
  (if recursive then _send ("!i" +:+ s +:+ ",1" +:+ LF)
   else _send ("!i" +:+ s +:+ LF)) ;;
  response <- _response ;;
  if negb (truthy response) then ret None
  else
    match response with
    | RStr body => ret (Some (remove_dups (Str.split body)))
    | RBool _ => raise AttributeError
    end.

(** ** An instance of the library for dotted-quad literals

    Enough of IPy to run the client on IPv4 data: [a.b.c.d] and [a.b.c.d/n]
    literals (host bits cleared, as [make_net] does), integers, and [IP]
    objects; the aggregating set keeps the minimal covering prefixes in
    address order. *)

Module DottedQuad.

(** [s.split(sep)] for a one-character separator *)
Fixpoint split_on (sep : ascii) (s : string) : list string :=
  match s with
  | EmptyString => [EmptyString]
  | String a r =>
      if Ascii.eqb a sep then EmptyString :: split_on sep r
      else
        match split_on sep r with
        | t :: ts => String a t :: ts
        | [] => [String a EmptyString]
        end
  end.

Definition octet (t : string) : option Z :=
  match Str.unsigned t with
  | Some n => if n <=? 255 then Some n else None
  | None => None
  end.

Definition address (t : string) : option Z :=
  match map octet (split_on "." t) with
  | [Some a; Some b; Some c; Some d] => Some (((a * 256 + b) * 256 + c) * 256 + d)
  | _ => None
  end.

Definition bits (v : Z) : Z := if v =? 4 then 32 else 128.

(** The network of [len] leading bits that holds address [a]. *)
Definition network (v a len : Z) : IP :=
  {| version := v;
     ip := Z.shiftl (Z.shiftr a (bits v - len)) (bits v - len);
     prefixlen := len |}.

Definition parse (t : string) : option IP :=
  match split_on "/" t with
  | [a] =>
      match address a with
      | Some n => Some (network 4 n 32)
      | None => None
      end
  | [a; l] =>
      match address a, Str.unsigned l with
      | Some n, Some len => if len <=? 32 then Some (network 4 n len) else None
      | _, _ => None
      end
  | _ => None
  end.

Definition make_net (x : item) : option IP :=
  match x with
  | ItemStr t => parse t
  | ItemInt n =>
      if (0 <=? n) && (n <? 2 ^ 32) then Some (network 4 n 32)
      else if (0 <=? n) && (n <? 2 ^ 128) then Some (network 6 n 128)
      else None
  | ItemIP a => Some a
  end.

(** [p] covers [q]: same family, no longer, and the same leading bits. *)
Definition covers (p q : IP) : bool :=
  (version p =? version q) && (prefixlen p <=? prefixlen q)
  && (ip (network (version q) (ip q) (prefixlen p)) =? ip p).

Definition sibling (a : IP) : IP :=
  {| version := version a;
     ip := Z.lxor (ip a) (Z.shiftl 1 (bits (version a) - prefixlen a));
     prefixlen := prefixlen a |}.

Definition parent (a : IP) : IP :=
  network (version a) (ip a) (prefixlen a - 1).

Fixpoint insert_sorted (a : IP) (l : list IP) : list IP :=
  match l with
  | [] => [a]
  | b :: r => if ip a <? ip b then a :: l else b :: insert_sorted a r
  end.

(** Merge [a] with its sibling while the sibling is present. *)
Fixpoint merge_up (n : nat) (l : list IP) (a : IP) : list IP :=
  match n with
  | O => insert_sorted a l
  | S n' =>
      if (0 <? prefixlen a) && bool_decide (sibling a ∈ l)
      then merge_up n' (PySet.discard l (sibling a)) (parent a)
      else insert_sorted a l
  end.

Definition add (l : list IP) (a : IP) : list IP :=
  if existsb (fun p => covers p a) l then l
  else merge_up (Z.to_nat (prefixlen a))
                (List.filter (fun q => negb (covers a q)) l) a.

(** [x in ipset]: an [IP] object is looked up among the prefixes that may
    cover it; the lookup orders [x] against the prefixes, which a string or
    an integer does not support. *)
Definition contains (l : list IP) (x : item) : result bool :=
  match x with
  | ItemIP a => Ret (existsb (fun p => covers p a) l)
  | _ =>
      match l with
      | [] => Ret false
      | _ => Raise (TypeError "unorderable types")
      end
  end.

(** What is left of the prefix [p] once [a], which it covers, is taken
    out: the siblings on the way from [a] up to [p]. *)
Fixpoint carve (n : nat) (a p : IP) : list IP :=
  match n with
  | O => []
  | S n' =>
      if prefixlen a <=? prefixlen p then []
      else insert_sorted (sibling a) (carve n' (parent a) p)
  end.

Definition discard (l : list IP) (a : IP) : list IP :=
  flat_map (fun p =>
              if covers a p then []
              else if covers p a then carve (Z.to_nat (prefixlen a)) a p
              else [p]) l.

#[global] Instance lib : IPy := {
  IP_make_net := make_net;
  IP_bool := fun _ => true;
  IPSet_add := add;
  IPSet_discard := discard;
  IPSet_contains := contains
}.

End DottedQuad.

(** ** Clients for the examples *)

(** A client as [IRRClient(host, ipv6=ipv6)] builds it (the other arguments
    at their defaults), after a [connect()] that succeeded: the server has
    acknowledged the identification with [C] and will send [replies]. *)
Definition session (ipv6 : bool) (replies : list string) : IRRClient :=
  snd (connect (Connected None (line "C" :: replies))
         (IRRClient_init "whois.radb.net" 43 true true ipv6)).

(** 192.0.2.0/24 as an [IP] object *)
Definition net_192_0_2_0 : IP := {| version := 4; ip := 3221225984; prefixlen := 24 |}.

(** ** Vocabulary of the statements *)

(** The lines of a body, put together as [_response] does. *)
Definition join (body : list string) : string :=
  fold_right String.append EmptyString body.

(** [body] is what the loop of [_response] reads for the length [datalen]:
    nothing when [datalen] is not positive, else lines up to and including
    the first one with which the length reaches [datalen]. *)
Definition is_body (datalen : Z) (body : list string) : Prop :=
  (body = [] /\ datalen <= 0)
  \/ exists init last,
       body = (init ++ [last])%list
       /\ Str.len (join init) < datalen <= Str.len (join body).

(** After the header, [_response] has consumed some lines as the body and
    one more line, the footer. *)
Definition consumes_footer (c : IRRClient) : Prop :=
  exists header body footer rest,
    pending c = (header :: body ++ footer :: rest)%list
    /\ pending (snd (_response c)) = rest.

(** [m] leaves the part [part] of the client as it is. *)
Definition preserves {A X} (part : IRRClient -> X) (m : M A) : Prop :=
  forall c, part (snd (m c)) = part c.

(** [m] raises nothing but exceptions in [P]. *)
Definition raises_only {A} (P : exn -> Prop) (m : M A) : Prop :=
  forall c e, fst (m c) = Raise e -> P e.

(** The exceptions of the connection, the codec and the prefix parser. *)
Definition not_type_error (e : exn) : Prop :=
  match e with
  | TypeError _ => False
  | _ => True
  end.

(** What no method changes after [__init__], and the cache. *)
Definition settings (c : IRRClient) : bool * bool * bool :=
  (caching c, aggregate c, ipv6 c).

(** The settings and the whole cache; the settings and one cache entry. *)
Definition store (c : IRRClient) : bool * bool * bool * gmap key RouteSet :=
  (settings c, _cache c).

Definition entry (k : key) (c : IRRClient) : bool * bool * bool * option RouteSet :=
  (settings c, _cache c !! k).

(** [get_data_by_set name] on [c] does not find [name] in the cache, sends
    the members query and reads [resp] as its response, which leaves the
    client [c1]. *)
Definition fetched (name : string) (c : IRRClient) (resp : response) (c1 : IRRClient)
  : Prop :=
  _is_cached c (KStr name) = false
  /\ (logging (Debug_fetching_routes name) ;;
      _send ("!i" +:+ name +:+ ",1" +:+ LF) ;;
      _response) c = (Ret resp, c1).

(** [m], when it returns, has written the commands [os] in this order
    to a socket that takes them, and has kept the store. *)
Definition sends {A} (os : list string) (m : M A) : Prop :=
  forall c a c',
    m c = (Ret a, c') ->
    store c' = store c
    /\ forall sk, s c = Some sk -> write_error sk = None ->
         s c' = Some {| sent := sent sk ++ os; write_error := None |}.

(** Two calls of [get_routes_by_origin(n)] in a row, starting from [c],
    write one command in total. *)
Definition one_round_trip `{L : IPy} (n : Z) (c : IRRClient) : Prop :=
  let c1 := snd (get_routes_by_origin (VInt n) c) in
  let c2 := snd (get_routes_by_origin (VInt n) c1) in
  exists cmd, commands c2 = (commands c ++ [cmd])%list.

(** What [_send] logs on the socket [sk]: the write error, if there is
    one. *)
Definition write_log (sk : socket) : list logrec :=
  match write_error sk with
  | Some msg => [Error_write msg]
  | None => []
  end.

(** What [_send] adds to the commands written to [sk]. *)
Definition written (sk : socket) (output : string) : list string :=
  match write_error sk with
  | Some _ => sent sk
  | None => sent sk ++ [output]
  end.

(** What [_response] logs for a header without data. *)
Definition no_data_log (code : ascii) (text : string) (last : option string)
  : list logrec :=
  if Ascii.eqb code "C" then []
  else if Ascii.eqb code "D" then [Warning_key_not_found last]
  else if Ascii.eqb code "E" then []
  else if Ascii.eqb code "F" then [Warning_query_failed text]
  else [Error_parse_length].

(** A [RouteSet] that does not aggregate, with its buckets in order: no
    prefix twice, IPv4 prefixes only in [ip4], IPv6 prefixes only in
    [ip6]. *)
Definition plain (rs : RouteSet) : Prop :=
  aggregated rs = false
  /\ NoDup (ip4 rs) /\ NoDup (ip6 rs)
  /\ Forall (fun a => version a = 4) (ip4 rs)
  /\ Forall (fun a => version a = 6) (ip6 rs).

(** What a call of [get_routes_by_origin] for the integer [n] does to the
    store: the settings stay; when the call returns a [RouteSet], the
    cache is the one before with that [RouteSet] at [n] if caching is on;
    when it does not return, the cache is as before. *)
Definition origin_effect (n : Z) (c : IRRClient)
    (r : result (option RouteSet)) (c1 : IRRClient) : Prop :=
  settings c1 = settings c
  /\ match r with
     | Ret v =>
         exists routes,
           v = Some routes
           /\ _cache c1 = if caching c then <[KInt n := routes]> (_cache c)
                          else _cache c
     | _ => _cache c1 = _cache c
     end.

(** [m] keeps the property [I] of the client. *)
Definition keeps {A} (I : IRRClient -> Prop) (m : M A) : Prop :=
  forall c, I c -> I (snd (m c)).

(** [P] holds of every public method of the client. *)
Definition every_method `{L : IPy} (P : forall A, M A -> Prop) : Prop :=
  (forall net, P _ (connect net))
  /\ (forall sources, P _ (set_sources sources))
  /\ P _ get_sources
  /\ (forall origin, P _ (get_routes_by_origin origin))
  /\ (forall name, P _ (get_data_by_set name))
  /\ (forall name recursive, P _ (get_members_by_set name recursive)).

(** All characters of [s] are whitespace ([s.isspace()], or [s] empty). *)
Fixpoint all_space (s : string) : bool :=
  match s with
  | String a r => Str.is_space a && all_space r
  | EmptyString => true
  end.

(** * Properties *)

(** ** The primitives on examples *)

Example split_ex : Str.split (" AS1  10.0.0.0/8" +:+ LF) = ["AS1"; "10.0.0.0/8"].
Proof. reflexivity. Qed.

Example int_ex : Str.int " -42" = Some (-42) /\ Str.int "1.5" = None
                 /\ Str.int "" = None /\ Str.of_int 65000 = "65000"
                 /\ Str.of_int 0 = "0" /\ Str.of_int (-7) = "-7".
Proof. repeat split; reflexivity. Qed.

Example rstrip_ex : Str.rstrip (line "A5") = "A5"
  /\ Str.lstrip_chars "AS" "AS65000" = "65000"
  /\ Str.upper "as-foo:rs" = "AS-FOO:RS" /\ Str.str_in "AS" "192.0.2.0/24" = false.
Proof. repeat split; reflexivity. Qed.

Example aggregate_ex :
  RouteSet_init [ItemStr "10.0.0.0/24"; ItemStr "10.0.1.7/24"] true
  = Ret {| aggregated := true;
           ip4 := [ {| version := 4; ip := 167772160; prefixlen := 23 |} ];
           ip6 := [] |}
  /\ (RouteSet_len <$> RouteSet_init [ItemStr "10.0.0.0/24"; ItemStr "10.0.1.0/24"] false)
     = Ret 2%nat.
Proof. split; reflexivity. Qed.

(** ** Strings: where a character of the response ends up *)

Section Characters.
Variable a : ascii.
Hypothesis not_space : Str.is_space a = false.

Lemma char_in_push_token t ts :
  (Str.char_in a t = true \/ exists u, In u ts /\ Str.char_in a u = true) ->
  exists u, In u (Str.push_token t ts) /\ Str.char_in a u = true.
Proof.
  intros [Ht | (u & Hu & Ha)].
  - destruct t as [|b t]; [discriminate|]. exists (String b t). simpl. auto.
  - exists u. destruct t; simpl; auto.
Qed.

Lemma char_in_split_go r :
  Str.char_in a r = true ->
  Str.char_in a (fst (Str.split_go r)) = true
  \/ exists u, In u (snd (Str.split_go r)) /\ Str.char_in a u = true.
Proof.
  induction r as [|b r IH]; simpl; [discriminate|].
  destruct (Str.split_go r) as [t ts] eqn:E. simpl in IH.
  intros H. apply orb_true_iff in H.
  destruct (Str.is_space b) eqn:Hb; simpl.
  - right. apply char_in_push_token. apply IH.
    destruct H as [H|H]; [|exact H].
    apply Ascii.eqb_eq in H. subst b. congruence.
  - destruct H as [H|H].
    + left. rewrite H. reflexivity.
    + destruct (IH H) as [Ht | Hts]; [left | right; exact Hts].
      rewrite Ht. apply orb_true_r.
Qed.

(** A character that is not whitespace lies in one of the tokens. *)
Lemma char_in_split r :
  Str.char_in a r = true ->
  exists u, In u (Str.split r) /\ Str.char_in a u = true.
Proof.
  intros H. unfold Str.split.
  pose proof (char_in_split_go r H) as H'.
  destruct (Str.split_go r) as [t ts]. apply char_in_push_token. exact H'.
Qed.

Lemma char_in_lstrip r : Str.char_in a (Str.lstrip r) = Str.char_in a r.
Proof.
  induction r as [|b r IH]; simpl; [reflexivity|].
  destruct (Str.is_space b) eqn:Hb; [|reflexivity].
  rewrite IH. destruct (Ascii.eqb a b) eqn:E; [|reflexivity].
  apply Ascii.eqb_eq in E. subst b. congruence.
Qed.

Lemma char_in_rstrip r : Str.char_in a (Str.rstrip r) = Str.char_in a r.
Proof.
  induction r as [|b r IH]; simpl; [reflexivity|].
  destruct (Str.rstrip r) as [|b' r'] eqn:E.
  - simpl in IH. rewrite <- IH.
    destruct (Str.is_space b) eqn:Hb; simpl.
    + destruct (Ascii.eqb a b) eqn:E'; [|reflexivity].
      apply Ascii.eqb_eq in E'. subst b. congruence.
    + reflexivity.
  - cbn [Str.char_in]. cbn [Str.char_in] in IH. rewrite IH. reflexivity.
Qed.

Lemma char_in_lstrip_chars chars r :
  Str.char_in a chars = false ->
  Str.char_in a (Str.lstrip_chars chars r) = Str.char_in a r.
Proof.
  intros Hc. induction r as [|b r IH]; simpl; [reflexivity|].
  destruct (Str.char_in b chars) eqn:Hb; [|reflexivity].
  rewrite IH. destruct (Ascii.eqb a b) eqn:E; [|reflexivity].
  apply Ascii.eqb_eq in E. subst b. congruence.
Qed.

Hypothesis not_digit : Str.digit a = None.

Lemma digits_char_in acc r : Str.char_in a r = true -> Str.digits acc r = None.
Proof.
  revert acc. induction r as [|b r IH]; simpl; intros acc H; [discriminate|].
  destruct (Ascii.eqb a b) eqn:E.
  - apply Ascii.eqb_eq in E. subst b. rewrite not_digit. reflexivity.
  - simpl in H. destruct (Str.digit b); [apply IH; exact H | reflexivity].
Qed.

Lemma unsigned_char_in r : Str.char_in a r = true -> Str.unsigned r = None.
Proof.
  intros H. destruct r; [discriminate|]. apply digits_char_in. exact H.
Qed.

(** [int] refuses a string that holds a character which is neither a
    digit, nor whitespace, nor a sign. *)
Lemma int_char_in r :
  a <> "-"%char -> a <> "+"%char ->
  Str.char_in a r = true -> Str.int r = None.
Proof.
  intros Hm Hp H. unfold Str.int, Str.strip.
  assert (Hs : Str.char_in a (Str.lstrip (Str.rstrip r)) = true)
    by (rewrite char_in_lstrip, char_in_rstrip; exact H).
  destruct (Str.lstrip (Str.rstrip r)) as [|b t] eqn:E; [discriminate|].
  assert (Ht : forall sign, b = sign -> a <> sign -> Str.char_in a t = true).
  { intros sign -> Hne. simpl in Hs. apply orb_true_iff in Hs.
    destruct Hs as [Hs|Hs]; [|exact Hs].
    apply Ascii.eqb_eq in Hs. contradiction. }
  destruct (ascii_dec b "-") as [->|Hb1].
  { rewrite (unsigned_char_in t (Ht _ eq_refl Hm)). reflexivity. }
  destruct (ascii_dec b "+") as [->|Hb2].
  { apply (unsigned_char_in t (Ht _ eq_refl Hp)). }
  transitivity (Str.unsigned (String b t)); [|apply unsigned_char_in; exact Hs].
  destruct b as [[] [] [] [] [] [] [] []]; try reflexivity; congruence.
Qed.

Lemma autnums_of_char_in tokens u :
  a <> "-"%char -> a <> "+"%char -> Str.char_in a "AS" = false ->
  In u tokens -> Str.char_in a u = true -> autnums_of tokens = None.
Proof.
  intros Hm Hp HAS Hin Hu. induction tokens as [|t ts IH]; [destruct Hin|].
  simpl. destruct Hin as [->|Hin].
  - rewrite int_char_in; auto. rewrite char_in_lstrip_chars; auto.
  - destruct (Str.int _); [|reflexivity]. rewrite IH; auto.
Qed.

End Characters.

(** A response with a [':'] or a ['.'] in it has a token that is no
    integer: the conversion to [autnums] fails. *)
Lemma autnums_of_dotted (response : string) :
  (Str.char_in ":" response || Str.char_in "." response)%bool = true ->
  autnums_of (Str.split response) = None.
Proof.
  intros H. apply orb_true_iff in H. destruct H as [H|H].
  - destruct (char_in_split ":" eq_refl response H) as (u & Hin & Hu).
    apply (autnums_of_char_in ":" eq_refl eq_refl) with (u := u);
      try assumption; try reflexivity; discriminate.
  - destruct (char_in_split "." eq_refl response H) as (u & Hin & Hu).
    apply (autnums_of_char_in "." eq_refl eq_refl) with (u := u);
      try assumption; try reflexivity; discriminate.
Qed.

(** ** get_data_by_set on a route-set response *)

(** C1 (not met by the code).  For every response whose uppercased text
    holds a [':'] or a ['.'] and no ["AS"], that is, for every response
    that [get_data_by_set] would classify as a route-set, the conversion of
    the tokens to [autnums] comes first and raises [ValueError]: the
    classification is never reached, no prefix is added and no pair is
    returned. *)
Theorem route_set_response_raises `{L : IPy}
    (s : string) (routes : RouteSet) (body : string) (c : IRRClient) :
  classify (Str.upper body) = route_set ->
  data_of_response s routes (RStr body) c = (Raise ValueError, c).
Proof.
  unfold classify, data_of_response. intros H.
  destruct (Str.char_in ":" (Str.upper body) || Str.char_in "." (Str.upper body))%bool
    eqn:Hdot; [|discriminate].
  destruct body as [|b body]; [discriminate|].
  cbn [truthy Str.truthy negb].
  rewrite (autnums_of_dotted _ Hdot). reflexivity.
Qed.

Lemma route_set_response_raises_witness :
  classify (Str.upper "192.0.2.0/24") = route_set
  /\ data_of_response "RS-EXAMPLE" (RouteSet_new true) (RStr "192.0.2.0/24")
       (session true [])
     = (Raise ValueError, session true []).
Proof.
  split; [reflexivity|].
  apply (route_set_response_raises "RS-EXAMPLE" (RouteSet_new true) "192.0.2.0/24").
  reflexivity.
Defined.

(** The whole call on the response ["192.0.2.0/24"]: the query is sent, the
    response is read with its footer, and [ValueError] is raised. *)
Lemma get_data_by_set_route_set_run :
  let r := get_data_by_set "RS-EXAMPLE"
             (session true [line "A13"; line "192.0.2.0/24"; line "C"]) in
  fst r = Raise ValueError
  /\ commands (snd r) = [line "!!"; line "!nirrpt-ng"; line "!iRS-EXAMPLE,1"]
  /\ pending (snd r) = []
  /\ _cache (snd r) = ∅.
Proof. vm_compute. repeat split. Qed.

(** ** connect *)

(** C2 (not met by the code).  On a client that holds no socket, as every
    client does before its first successful [connect()], a connection that
    fails with [socket.error] makes [connect()] raise [AttributeError]:
    the handler calls [self.s.close()] on [None]. *)
Theorem connect_failure_raises (msg : string) (c : IRRClient) :
  s c = None ->
  fst (connect (SocketError msg) c) = Raise AttributeError.
Proof.
  intros H. unfold connect, bind, self, logging, raise. simpl. rewrite H. reflexivity.
Qed.

Lemma connect_failure_raises_witness :
  s (IRRClient_init "whois.radb.net" 43 true true true) = None
  /\ fst (connect (SocketError "Connection refused")
            (IRRClient_init "whois.radb.net" 43 true true true))
     = Raise AttributeError.
Proof.
  split; [reflexivity|].
  apply (connect_failure_raises "Connection refused"). reflexivity.
Defined.

(** With a socket from an earlier [connect()] the handler works as meant:
    the failure is logged and [False] is returned. *)
Lemma connect_failure_with_socket (msg : string) (c : IRRClient) (sk : socket) :
  s c = Some sk ->
  fst (connect (SocketError msg) c) = Ret false
  /\ s (snd (connect (SocketError msg) c)) = None
  /\ log (snd (connect (SocketError msg) c))
     = (log c ++ [Debug_connecting (host c) (port c); Error_connection msg;
                  Error_unable_to_connect (host c) (port c)])%list.
Proof.
  intros H. unfold connect, bind, self, logging, ret. simpl. rewrite H. simpl.
  repeat split. rewrite <- !app_assoc. reflexivity.
Qed.

(** ** The ipv6 flag *)

(** [__init__] sets [self.ipv6] whatever its argument is. *)
Lemma init_ipv6_always_set (h : string) (p : Z) (cache aggregate ipv6_arg : bool) :
  ipv6 (IRRClient_init h p cache aggregate ipv6_arg) = true.
Proof. reflexivity. Qed.

(** C6 (not met by the code).  A client built with [ipv6=False] has
    [self.ipv6] true, and on a cache miss it sends the IPv6 query
    [!6AS65000] after the IPv4 query. *)
Theorem ipv6_disabled_still_queried :
  ipv6 (IRRClient_init "whois.radb.net" 43 true true false) = true
  /\ commands (snd (get_routes_by_origin (VInt 65000)
                      (session false [line "D"; line "D"])))
     = [line "!!"; line "!nirrpt-ng"; line "!gAS65000"; line "!6AS65000"].
Proof. split; reflexivity. Qed.

(** ** RouteSet membership *)

(** C7 (not met by the code).  [__contains__] hands the literal to the
    buckets as it is, where [add] and [discard] parse it first.  In a
    [RouteSet] that does not aggregate the buckets are sets of [IP]
    objects, and no string is a member of them: after [add(P)] for a
    literal [P], [P in routes] is false. *)
Theorem contains_literal_after_add `{L : IPy} (rs rs' : RouteSet) (P : string) :
  aggregated rs = false ->
  RouteSet_add rs (ItemStr P) = Ret rs' ->
  RouteSet_contains rs' (ItemStr P) = Ret false.
Proof.
  intros Hagg Hadd. unfold RouteSet_add in Hadd.
  assert (aggregated rs' = false) as Hagg'.
  { destruct (IP_make_net (ItemStr P)); [|discriminate].
    destruct (version i =? 4); [|destruct (version i =? 6)];
      inversion Hadd; subst; simpl; assumption. }
  unfold RouteSet_contains, bucket_contains. rewrite Hagg'. reflexivity.
Qed.

Lemma contains_literal_after_add_witness :
  RouteSet_add (RouteSet_new false) (ItemStr "10.0.0.0/24")
  = Ret {| aggregated := false;
           ip4 := [ {| version := 4; ip := 167772160; prefixlen := 24 |} ];
           ip6 := [] |}
  /\ RouteSet_contains
       {| aggregated := false;
          ip4 := [ {| version := 4; ip := 167772160; prefixlen := 24 |} ];
          ip6 := [] |} (ItemStr "10.0.0.0/24")
     = Ret false.
Proof.
  split; [reflexivity|].
  apply (contains_literal_after_add (RouteSet_new false) _ "10.0.0.0/24");
    reflexivity.
Defined.

(** The [IP] object that [add] has stored is found. *)
Lemma contains_object_after_add `{L : IPy} (rs rs' : RouteSet) (x : item) (a : IP) :
  aggregated rs = false ->
  IP_make_net x = Some a -> (version a = 4 \/ version a = 6) ->
  RouteSet_add rs x = Ret rs' ->
  RouteSet_contains rs' (ItemIP a) = Ret true.
Proof.
  intros Hagg Hx Hv Hadd. unfold RouteSet_add in Hadd. rewrite Hx, Hagg in Hadd.
  assert (Hmem : forall l, bool_decide (a ∈ PySet.add l a) = true).
  { intros l. apply bool_decide_eq_true. unfold PySet.add.
    destruct (bool_decide (a ∈ l)) eqn:E.
    - apply bool_decide_eq_true in E. exact E.
    - apply elem_of_app. right. apply list_elem_of_singleton. reflexivity. }
  unfold RouteSet_contains, bucket_contains.
  destruct Hv as [Hv|Hv]; rewrite Hv in Hadd; simpl in Hadd;
    inversion Hadd; subst; simpl; rewrite Hmem; simpl; try reflexivity.
  destruct (bool_decide _); reflexivity.
Qed.

(** ** What get_data_by_set returns *)

(** The path for a set name that is in the cache: [get_data_by_set]
    returns what [_get_cache] gives, the [RouteSet] alone, and touches
    nothing.  No method stores a set name, so a session does not take this
    path. *)
Lemma get_data_by_set_cached_is_bare `{L : IPy}
    (name : string) (rs : RouteSet) (c : IRRClient) :
  caching c = true ->
  _cache c !! KStr name = Some rs ->
  get_data_by_set name c = (Ret (Bare (Some rs)), c).
Proof.
  intros Hc Hk. unfold get_data_by_set, bind, self, _is_cached, _get_cache, ret.
  rewrite Hc, Hk. simpl. reflexivity.
Qed.

(** C8 (not met by the code).  Not every call of [get_data_by_set]
    returns a pair.  On a client that has just connected, let the server
    answer the members query with [C], success without data: [_response]
    returns [True], which passes [if not response], and the call raises
    [AttributeError] at [response.upper()] instead of returning
    [(RouteSet, tuple)]. *)
Theorem get_data_by_set_empty_set_raises :
  fst (get_data_by_set "AS-EMPTY" (session true [line "C"])) = Raise AttributeError.
Proof. reflexivity. Qed.

(** ** The response codec *)

Lemma append_cons (a : ascii) (u v : string) :
  String a u +:+ v = String a (u +:+ v).
Proof. reflexivity. Qed.

Lemma len_append (u v : string) : Str.len (u +:+ v) = Str.len u + Str.len v.
Proof.
  unfold Str.len.
  assert (String.length (u +:+ v) = (String.length u + String.length v)%nat) as ->
    by (induction u as [|a u IH];
        [reflexivity | rewrite append_cons; simpl; rewrite IH; reflexivity]).
  lia.
Qed.

Lemma len_nonneg (u : string) : 0 <= Str.len u.
Proof. unfold Str.len. lia. Qed.

Lemma append_assoc (u v w : string) : (u +:+ v) +:+ w = u +:+ (v +:+ w).
Proof.
  induction u as [|a u IH]; [reflexivity|].
  rewrite !append_cons, IH. reflexivity.
Qed.

Lemma append_empty_r (u : string) : u +:+ EmptyString = u.
Proof.
  induction u as [|a u IH]; [reflexivity|].
  rewrite !append_cons, IH. reflexivity.
Qed.

Lemma join_app (l1 l2 : list string) : join (l1 ++ l2) = join l1 +:+ join l2.
Proof.
  induction l1 as [|x l1 IH]; simpl; [reflexivity|].
  rewrite IH, append_assoc. reflexivity.
Qed.

Lemma join_nil : join [] = EmptyString.
Proof. reflexivity. Qed.

Lemma join_cons (x : string) (l : list string) : join (x :: l) = x +:+ join l.
Proof. reflexivity. Qed.

Lemma len_empty : Str.len EmptyString = 0.
Proof. reflexivity. Qed.

Lemma read_data_more (datalen : Z) (data l : string) (ls : list string) :
  Str.len data < datalen ->
  read_data datalen data (l :: ls) = read_data datalen (data +:+ l) ls.
Proof.
  intros H. apply Z.ltb_lt in H. cbn [read_data]. rewrite H. reflexivity.
Qed.

Lemma read_data_done (datalen : Z) (data : string) (ls : list string) :
  datalen <= Str.len data ->
  read_data datalen data ls = Some (data, ls).
Proof.
  intros H. apply Z.ltb_ge in H. destruct ls; cbn [read_data]; rewrite H; reflexivity.
Qed.

(** The loop stops right behind the body. *)
Lemma read_data_init (datalen : Z) (init : list string) :
  forall (data last : string) (rest : list string),
    Str.len data + Str.len (join init) < datalen ->
    datalen <= Str.len data + Str.len (join init) + Str.len last ->
    read_data datalen data (init ++ last :: rest)
    = Some (data +:+ join init +:+ last, rest).
Proof.
  induction init as [|x init IH]; intros data last rest Hlt Hle.
  - rewrite join_nil, len_empty in Hlt, Hle. rewrite join_nil. cbn [app].
    rewrite read_data_more by lia.
    rewrite read_data_done by (rewrite len_append; lia).
    reflexivity.
  - rewrite join_cons, len_append in Hlt, Hle.
    pose proof (len_nonneg x). pose proof (len_nonneg (join init)).
    rewrite <- app_comm_cons, read_data_more by lia.
    rewrite IH by (rewrite len_append; lia).
    rewrite join_cons, !append_assoc. reflexivity.
Qed.

Lemma read_data_body (datalen : Z) (body rest : list string) :
  is_body datalen body ->
  read_data datalen EmptyString (body ++ rest) = Some (join body, rest).
Proof.
  intros [[-> Hle] | (init & last & -> & Hlt & Hle)].
  - cbn [app]. apply read_data_done. exact Hle.
  - rewrite join_app, join_cons, join_nil, append_empty_r, len_append in Hle.
    rewrite <- app_assoc. cbn [app].
    pose proof len_empty as H0.
    rewrite (read_data_init datalen init EmptyString last rest) by lia.
    rewrite join_app, join_cons, join_nil, append_empty_r. reflexivity.
Qed.

(** C3, as the code has it.  The footer is read when data follows: for a
    header [A] with a decimal length, [_response] consumes the body and
    exactly one line after it, and returns the body stripped.  For every
    other status code ([C], [D], [E], [F] or an unknown one) it returns
    [True] or [False] with the header line alone consumed. *)
Theorem response_footer (c : IRRClient) (h : string) (rest : list string)
    (code : ascii) (text : string) :
  f c = Some (h :: rest) ->
  Str.rstrip h = String code text ->
  (code <> "A"%char ->
     (exists b, fst (_response c) = Ret (RBool b))
     /\ pending (snd (_response c)) = rest)
  /\ (code = "A"%char ->
      forall (datalen : Z) (body : list string) (footer : string) (rest' : list string),
        Str.int text = Some datalen ->
        rest = (body ++ footer :: rest')%list ->
        is_body datalen body ->
        fst (_response c) = Ret (RStr (Str.rstrip (join body)))
        /\ pending (snd (_response c)) = rest').
Proof.
  intros Hf Hh. unfold _response, bind, _readline. rewrite Hf, Hh. split.
  - intros Hcode.
    destruct (Ascii.eqb code "C") eqn:EC; [split; [eexists|]; reflexivity|].
    destruct (Ascii.eqb code "D") eqn:ED; [split; [eexists|]; reflexivity|].
    destruct (Ascii.eqb code "E") eqn:EE; [split; [eexists|]; reflexivity|].
    destruct (Ascii.eqb code "F") eqn:EF; [split; [eexists|]; reflexivity|].
    destruct (Ascii.eqb code "A") eqn:EA;
      [apply Ascii.eqb_eq in EA; contradiction|].
    split; [eexists|]; reflexivity.
  - intros -> datalen body footer rest' Hint -> Hbody. cbn [Ascii.eqb Bool.eqb].
    rewrite Hint. unfold _read_body.
    destruct (Str.len EmptyString <? datalen) eqn:Hpos.
    + cbn [f with_f]. rewrite (read_data_body datalen body _ Hbody).
      destruct (Str.len (join body) =? datalen); split; reflexivity.
    + destruct Hbody as [[-> _] | (init & last & -> & Hlt & _)].
      * destruct (Str.len EmptyString =? datalen); split; reflexivity.
      * apply Z.ltb_ge in Hpos. rewrite len_empty in Hpos.
        pose proof (len_nonneg (join init)). lia.
Qed.

Lemma response_footer_witness :
  let c := session true [line "C"; line "A6"; line "hello"; line "C"; line "next"] in
  let c' := snd (_response c) in
  ((exists b, fst (_response c) = Ret (RBool b))
   /\ pending c' = [line "A6"; line "hello"; line "C"; line "next"])
  /\ fst (_response c') = Ret (RStr "hello")
  /\ pending (snd (_response c')) = [line "next"].
Proof.
  intros c c'. split.
  - apply (proj1 (response_footer c (line "C") _ "C" "" eq_refl eq_refl)).
    discriminate.
  - apply (proj2 (response_footer c' (line "A6") _ "A" "6" eq_refl eq_refl)
             eq_refl 6 [line "hello"] (line "C") [line "next"]);
      [reflexivity | reflexivity |].
    right. exists [], (line "hello"). repeat split; vm_compute; congruence.
Defined.

(** C3, as it is written, fails on a response without data: after the
    header [C] the next line stays in the stream. *)
Lemma footer_not_consumed_after_C :
  ~ consumes_footer (session true [line "C"; line "A6"]).
Proof.
  intros (header & body & footer & rest & H1 & H2).
  vm_compute in H2. subst rest.
  apply (f_equal (@length string)) in H1.
  change (pending (session true [line "C"; line "A6"])) with [line "C"; line "A6"] in H1.
  simpl in H1. rewrite length_app in H1. simpl in H1. lia.
Qed.

(** ** Steps of a method *)

Lemma bind_Ret {A B} (m : M A) (k : A -> M B) (c c' : IRRClient) (a : A) :
  m c = (Ret a, c') -> bind m k c = k a c'.
Proof. intros H. unfold bind. rewrite H. reflexivity. Qed.

Lemma bind_Ret_inv {A B} (m : M A) (k : A -> M B) (c c2 : IRRClient) (b : B) :
  bind m k c = (Ret b, c2) ->
  exists a c1, m c = (Ret a, c1) /\ k a c1 = (Ret b, c2).
Proof.
  unfold bind. destruct (m c) as [[a| |] c1]; intros H; try discriminate.
  exists a, c1. split; [reflexivity | exact H].
Qed.

(** [_send] on a client that holds a socket returns, and leaves the input
    stream alone. *)
Lemma _send_returns (output : string) (c : IRRClient) (sk : socket) :
  s c = Some sk ->
  exists b c', _send output c = (Ret b, c')
               /\ f c' = f c /\ (exists sk', s c' = Some sk').
Proof.
  intros H. unfold _send. cbn [s with_lastcommand]. rewrite H.
  destruct (write_error sk); eexists _, _; (split; [reflexivity|]);
    (split; [reflexivity|]); cbn [s with_log with_lastcommand with_s]; eauto.
Qed.

(** The header [A0]: an empty body, and the footer read. *)
Lemma _response_A0 (c : IRRClient) (h : string) (rest : list string) :
  f c = Some (h :: rest) -> Str.rstrip h = "A0" ->
  fst (_response c) = Ret (RStr EmptyString).
Proof.
  intros Hf Hh. unfold _response, bind, _readline. rewrite Hf, Hh.
  destruct rest; reflexivity.
Qed.

(** The headers [D] and [F]: [False]. *)
Lemma _response_failure (c : IRRClient) (h : string) (rest : list string)
    (code : ascii) (text : string) :
  f c = Some (h :: rest) -> Str.rstrip h = String code text ->
  code = "D"%char \/ code = "F"%char ->
  fst (_response c) = Ret (RBool false).
Proof.
  intros Hf Hh Hcode. unfold _response, bind, _readline. rewrite Hf, Hh.
  destruct Hcode as [-> | ->]; reflexivity.
Qed.

(** A command and what is made of its response, when the response is
    known. *)
Lemma query_returns {B} (cmd : string) (k : response -> M B)
    (c : IRRClient) (sk : socket) (r : response) (b : B) :
  s c = Some sk ->
  (forall c', f c' = f c -> fst (_response c') = Ret r) ->
  (forall c1, fst (k r c1) = Ret b) ->
  fst (bind (_send cmd) (fun _ => bind _response k) c) = Ret b.
Proof.
  intros Hs Hr Hk. destruct (_send_returns cmd c sk Hs) as (b0 & c' & E & Ef & _).
  rewrite (bind_Ret _ _ _ _ _ E). specialize (Hr c' Ef). unfold bind.
  destruct (_response c') as [r0 c1]. simpl in Hr. subst r0. apply Hk.
Qed.

(** ** An empty body *)

(** C10.  For the header [A0], [_response] returns the empty string, which
    is false in a condition; [set_sources] and [get_sources] then return
    [False], exactly what they return after a [D] or an [F] header. *)
Theorem empty_body_reads_as_failure
    (sources : string) (c cf : IRRClient) (sk skf : socket)
    (h hf : string) (rest restf : list string) (code : ascii) (text : string) :
  s c = Some sk -> f c = Some (h :: rest) -> Str.rstrip h = "A0" ->
  s cf = Some skf -> f cf = Some (hf :: restf) ->
  Str.rstrip hf = String code text -> code = "D"%char \/ code = "F"%char ->
  fst (_response c) = Ret (RStr EmptyString)
  /\ truthy (RStr EmptyString) = false
  /\ fst (set_sources sources c) = Ret None
  /\ fst (set_sources sources cf) = Ret None
  /\ fst (get_sources c) = Ret (RBool false)
  /\ fst (get_sources cf) = Ret (RBool false).
Proof.
  intros Hs Hf Hh Hsf Hff Hhf Hcode.
  split; [exact (_response_A0 c h rest Hf Hh)|].
  split; [reflexivity|].
  assert (HA0 : forall c', f c' = f c -> fst (_response c') = Ret (RStr EmptyString))
    by (intros c' E; apply (_response_A0 c' h rest); [rewrite E; exact Hf | exact Hh]).
  assert (HDF : forall c', f c' = f cf -> fst (_response c') = Ret (RBool false))
    by (intros c' E; apply (_response_failure c' hf restf code text);
        [rewrite E; exact Hff | exact Hhf | exact Hcode]).
  unfold set_sources, get_sources. repeat split.
  - apply (query_returns _ _ c sk _ _ Hs HA0). reflexivity.
  - apply (query_returns _ _ cf skf _ _ Hsf HDF). reflexivity.
  - apply (query_returns _ _ c sk _ _ Hs HA0). reflexivity.
  - apply (query_returns _ _ cf skf _ _ Hsf HDF). reflexivity.
Qed.

Lemma empty_body_reads_as_failure_witness :
  let c := session true [line "A0"; line "C"] in
  let cf := session true [line "D"] in
  fst (_response c) = Ret (RStr EmptyString)
  /\ truthy (RStr EmptyString) = false
  /\ fst (set_sources "RADB" c) = Ret None
  /\ fst (set_sources "RADB" cf) = Ret None
  /\ fst (get_sources c) = Ret (RBool false)
  /\ fst (get_sources cf) = Ret (RBool false).
Proof.
  intros c cf.
  apply (empty_body_reads_as_failure "RADB" c cf
           {| sent := [line "!!"; line "!nirrpt-ng"]; write_error := None |}
           {| sent := [line "!!"; line "!nirrpt-ng"]; write_error := None |}
           (line "A0") (line "D") [line "C"] [] "D" "");
    try reflexivity.
  left. reflexivity.
Defined.

(** ** Which exceptions a method raises *)

Create HintDb raises.

Lemma raises_only_ret {A} (P : exn -> Prop) (a : A) : raises_only P (ret a).
Proof. intros c e H. discriminate. Qed.

Lemma raises_only_self (P : exn -> Prop) : raises_only P self.
Proof. intros c e H. discriminate. Qed.

Lemma raises_only_logging (P : exn -> Prop) (r : logrec) : raises_only P (logging r).
Proof. intros c e H. discriminate. Qed.

Lemma raises_only_raise {A} (P : exn -> Prop) (e : exn) :
  P e -> raises_only P (@raise A e).
Proof. intros He c e' H. inversion H. subst. exact He. Qed.

Lemma raises_only_lift {A} (P : exn -> Prop) (r : result A) :
  (forall e, r = Raise e -> P e) -> raises_only P (lift r).
Proof. intros Hr c e H. apply Hr. exact H. Qed.

Lemma raises_only_bind {A B} (P : exn -> Prop) (m : M A) (k : A -> M B) :
  raises_only P m -> (forall a, raises_only P (k a)) -> raises_only P (bind m k).
Proof.
  intros Hm Hk c e. unfold bind. specialize (Hm c).
  destruct (m c) as [[a| e0 |] c']; simpl in *; intros H.
  - apply (Hk a c'). exact H.
  - inversion H. subst. apply Hm. reflexivity.
  - discriminate.
Qed.

Lemma raises_only_send (output : string) : raises_only not_type_error (_send output).
Proof.
  intros c e. unfold _send. cbn [s with_lastcommand].
  destruct (s c) as [sk|]; [destruct (write_error sk)|]; simpl; intros H;
    inversion H; exact I.
Qed.

Lemma raises_only_readline : raises_only not_type_error _readline.
Proof.
  intros c e. unfold _readline. destruct (f c) as [[|l ls]|]; simpl; intros H;
    inversion H; exact I.
Qed.

Lemma raises_only_read_body (datalen : Z) :
  raises_only not_type_error (_read_body datalen).
Proof.
  intros c e. unfold _read_body.
  destruct (Str.len EmptyString <? datalen); [|discriminate].
  destruct (f c) as [lines|]; [|simpl; intros H; inversion H; exact I].
  destruct (read_data datalen EmptyString lines) as [[data rest]|]; discriminate.
Qed.

#[local] Hint Resolve raises_only_ret raises_only_self raises_only_logging
  raises_only_send raises_only_readline raises_only_read_body : raises.

Ltac raises_step :=
  match goal with
  | |- raises_only _ (bind _ _) => apply raises_only_bind; [|intros ?]
  | |- raises_only _ (if ?b then _ else _) => destruct b
  | |- raises_only _ (match ?o with Some _ => _ | None => _ end) => destruct o
  | |- raises_only _ (match ?r with RBool _ => _ | RStr _ => _ end) => destruct r
  | |- raises_only _ (raise _) => apply raises_only_raise; exact I
  | |- _ => solve [auto with raises]
  end.

Lemma raises_only_response : raises_only not_type_error _response.
Proof.
  unfold _response. apply raises_only_bind; [auto with raises|]. intros l.
  destruct (Str.rstrip l) as [|code rest]; repeat raises_step.
Qed.

Lemma RouteSet_add_all_raises `{L : IPy} (items : list item) :
  forall (rs : RouteSet) (e : exn),
    RouteSet_add_all rs items = Raise e -> e = ValueError.
Proof.
  induction items as [|x xs IH]; intros rs e; simpl; [discriminate|].
  unfold RouteSet_add at 1.
  destruct (IP_make_net x) as [a|]; [|simpl; congruence].
  destruct (version a =? 4); [apply IH|].
  destruct (version a =? 6); apply IH.
Qed.

Lemma raises_only_add_all `{L : IPy} (rs : RouteSet) (items : list item) :
  raises_only not_type_error (lift (RouteSet_add_all rs items)).
Proof.
  apply raises_only_lift. intros e H.
  rewrite (RouteSet_add_all_raises items rs e H). exact I.
Qed.

Lemma raises_only_set_cache (P : exn -> Prop) (k : key) (routes : RouteSet) :
  raises_only P (_set_cache k routes).
Proof. intros c e. unfold _set_cache. destruct (caching c); discriminate. Qed.

#[local] Hint Resolve raises_only_response raises_only_add_all
  raises_only_set_cache : raises.

(** ** The origin argument *)

Lemma get_routes_by_origin_raises `{L : IPy} (origin : pyval) (n : Z) :
  int_of origin = Some n ->
  raises_only not_type_error (get_routes_by_origin origin).
Proof.
  intros H. unfold get_routes_by_origin. rewrite H. cbv zeta. repeat raises_step.
Qed.

(** C5.  When [int(origin)] fails, [get_routes_by_origin] raises the
    [TypeError] of its validation and the client is as before the call:
    nothing was sent and nothing was read.  When [int(origin)] succeeds,
    the call raises no [TypeError]. *)
Theorem origin_validation `{L : IPy} (origin : pyval) (c : IRRClient) :
  (int_of origin = None ->
     get_routes_by_origin origin c
     = (Raise (TypeError "origin must be convertable to integer"), c))
  /\ (forall n, int_of origin = Some n ->
        forall msg, fst (get_routes_by_origin origin c) <> Raise (TypeError msg)).
Proof.
  split.
  - intros H. unfold get_routes_by_origin. rewrite H. reflexivity.
  - intros n Hn msg H.
    exact (get_routes_by_origin_raises origin n Hn c _ H).
Qed.

Lemma origin_validation_witness :
  let c := session true [line "A13"; line "192.0.2.0/24"; line "C"; line "D"] in
  get_routes_by_origin (VStr "notanumber") c
  = (Raise (TypeError "origin must be convertable to integer"), c)
  /\ fst (get_routes_by_origin (VStr "65000") c)
     <> Raise (TypeError "origin must be convertable to integer").
Proof.
  intros c. split.
  - apply (proj1 (origin_validation (VStr "notanumber") c)). reflexivity.
  - apply (proj2 (origin_validation (VStr "65000") c) 65000). reflexivity.
Defined.

(** ** What a method leaves as it is *)

Lemma preserves_bind {A B X} (part : IRRClient -> X) (m : M A) (k : A -> M B) :
  preserves part m -> (forall a, preserves part (k a)) -> preserves part (bind m k).
Proof.
  intros Hm Hk c. unfold bind. specialize (Hm c).
  destruct (m c) as [[a| e |] c']; simpl in *; try exact Hm.
  rewrite (Hk a c'). exact Hm.
Qed.

Lemma preserves_ret {A X} (part : IRRClient -> X) (a : A) : preserves part (ret a).
Proof. intros c. reflexivity. Qed.

Lemma preserves_raise {A X} (part : IRRClient -> X) (e : exn) :
  preserves part (@raise A e).
Proof. intros c. reflexivity. Qed.

Lemma preserves_self {X} (part : IRRClient -> X) : preserves part self.
Proof. intros c. reflexivity. Qed.

Lemma preserves_lift {A X} (part : IRRClient -> X) (r : result A) :
  preserves part (lift r).
Proof. intros c. reflexivity. Qed.

Lemma preserves_logging (r : logrec) : preserves store (logging r).
Proof. intros c. reflexivity. Qed.

Lemma preserves_send (output : string) : preserves store (_send output).
Proof.
  intros c. unfold _send. cbn [s with_lastcommand].
  destruct (s c) as [sk|]; [destruct (write_error sk)|]; reflexivity.
Qed.

Lemma preserves_readline : preserves store _readline.
Proof. intros c. unfold _readline. destruct (f c) as [[|l ls]|]; reflexivity. Qed.

Lemma preserves_read_body (datalen : Z) : preserves store (_read_body datalen).
Proof.
  intros c. unfold _read_body.
  destruct (Str.len EmptyString <? datalen); [|reflexivity].
  destruct (f c) as [lines|]; [|reflexivity].
  destruct (read_data datalen EmptyString lines) as [[data rest]|]; reflexivity.
Qed.

Create HintDb frame.
#[local] Hint Resolve preserves_ret preserves_raise preserves_self preserves_lift
  preserves_logging preserves_send preserves_readline preserves_read_body : frame.

Ltac preserves_step :=
  match goal with
  | |- preserves _ (bind _ _) => apply preserves_bind; [|intros ?]
  | |- preserves _ (if ?b then _ else _) => destruct b
  | |- preserves _ (match ?o with Some _ => _ | None => _ end) => destruct o
  | |- preserves _ (match ?r with RBool _ => _ | RStr _ => _ end) => destruct r
  | |- _ => solve [auto with frame]
  end.

Lemma preserves_response : preserves store _response.
Proof.
  unfold _response. apply preserves_bind; [auto with frame|]. intros l.
  destruct (Str.rstrip l) as [|code rest]; repeat preserves_step.
Qed.

(** What keeps the store keeps every entry. *)
Lemma preserves_entry {A} (k : key) (m : M A) :
  preserves store m -> preserves (entry k) m.
Proof.
  intros H c. exact (f_equal (fun p => (fst p, snd p !! k)) (H c)).
Qed.

Lemma preserves_set_cache (k k' : key) (routes : RouteSet) :
  k' <> k -> preserves (entry k) (_set_cache k' routes).
Proof.
  intros Hne c. unfold _set_cache. destruct (caching c); [|reflexivity].
  unfold entry. cbn. rewrite lookup_insert_ne by exact Hne. reflexivity.
Qed.

#[local] Hint Resolve preserves_response : frame.
#[local] Hint Extern 1 (preserves (entry _) (_send _)) =>
  apply preserves_entry, preserves_send : frame.
#[local] Hint Extern 1 (preserves (entry _) _response) =>
  apply preserves_entry, preserves_response : frame.
#[local] Hint Extern 1 (preserves (entry _) (logging _)) =>
  apply preserves_entry, preserves_logging : frame.
#[local] Hint Extern 1 (preserves (entry (KStr _)) (_set_cache (KInt _) _)) =>
  apply preserves_set_cache; discriminate : frame.

(** [get_routes_by_origin] writes integer keys only. *)
Lemma preserves_get_routes_by_origin `{L : IPy} (name : string) (origin : pyval) :
  preserves (entry (KStr name)) (get_routes_by_origin origin).
Proof.
  unfold get_routes_by_origin. destruct (int_of origin) as [n|]; [|auto with frame].
  cbv zeta. repeat preserves_step.
Qed.

Lemma preserves_resolve_autnums `{L : IPy} (name : string) (autnums : list Z) :
  forall routes, preserves (entry (KStr name)) (resolve_autnums autnums routes).
Proof.
  induction autnums as [|asn rest IH]; intros routes; cbn [resolve_autnums].
  - auto with frame.
  - apply preserves_bind; [apply preserves_get_routes_by_origin|].
    intros [rs|]; [|auto with frame].
    apply preserves_bind; [auto with frame|]. intros routes'. apply IH.
Qed.

(** The route-set branch is never taken: whenever [autnums] could be
    computed, the object is an as-set. *)
Lemma classify_autnums (response : string) (autnums : list Z) :
  autnums_of (Str.split response) = Some autnums -> classify response = as_set.
Proof.
  intros H. unfold classify.
  destruct (Str.char_in ":" response || Str.char_in "." response)%bool eqn:E;
    [|reflexivity].
  rewrite (autnums_of_dotted response E) in H. discriminate.
Qed.

Lemma preserves_data_of_response `{L : IPy}
    (name : string) (routes : RouteSet) (response : response) :
  preserves (entry (KStr name)) (data_of_response name routes response).
Proof.
  unfold data_of_response.
  destruct (negb (truthy response)); [auto with frame|].
  destruct response as [b|body]; [auto with frame|].
  destruct (autnums_of (Str.split (Str.upper body))) as [autnums|] eqn:E;
    [|auto with frame].
  rewrite (classify_autnums _ _ E).
  destruct autnums as [|asn rest]; [repeat preserves_step|].
  apply preserves_bind; [auto with frame|]. intros _.
  apply preserves_bind; [apply preserves_resolve_autnums|]. intros routes'.
  repeat preserves_step.
Qed.

Lemma preserves_get_data_by_set `{L : IPy} (name : string) :
  preserves (entry (KStr name)) (get_data_by_set name).
Proof.
  unfold get_data_by_set. apply preserves_bind; [auto with frame|]. intros c0.
  destruct (_is_cached c0 (KStr name)); [auto with frame|]. cbv zeta.
  apply preserves_bind; [auto with frame|]. intros _.
  apply preserves_bind; [auto with frame|]. intros _.
  apply preserves_bind; [auto with frame|]. intros response.
  apply preserves_data_of_response.
Qed.

(** ** The cache entry of a set *)

Lemma get_data_by_set_fetched `{L : IPy}
    (name : string) (c : IRRClient) (resp : response) (c1 : IRRClient) :
  fetched name c resp c1 ->
  get_data_by_set name c
  = data_of_response name (RouteSet_new (aggregate c)) resp c1.
Proof.
  intros [Hmiss H]. unfold get_data_by_set.
  unfold bind at 1. cbn [self]. rewrite Hmiss. cbv zeta.
  unfold bind in H. unfold bind at 1 2 3.
  destruct (logging (Debug_fetching_routes name) c) as [[u|e|] c2]; try discriminate.
  destruct (_send ("!i" +:+ name +:+ ",1" +:+ LF) c2) as [[b|e|] c3]; try discriminate.
  destruct (_response c3) as [[r|e|] c4]; try discriminate.
  inversion H; subst. reflexivity.
Qed.

(** C9.  Let [get_data_by_set] read [resp] as the response to its members
    query.  The call is then the handling of [resp]; the cache entry of the
    set name is as before the call when [resp] classifies as an as-set, and
    when the [RouteSet] returned is empty; and if the entry has changed,
    [resp] classifies as a route-set and the entry is the non-empty
    [RouteSet] returned. *)
Theorem set_entry_written_only_for_route_set `{L : IPy}
    (name : string) (c : IRRClient) (resp : response) (c1 : IRRClient) :
  fetched name c resp c1 ->
  let r := get_data_by_set name c in
  r = data_of_response name (RouteSet_new (aggregate c)) resp c1
  /\ (forall body, resp = RStr body -> classify (Str.upper body) = as_set ->
        _cache (snd r) !! KStr name = _cache c !! KStr name)
  /\ (forall rs asns, fst r = Ret (Pair rs asns) -> RouteSet_bool rs = false ->
        _cache (snd r) !! KStr name = _cache c !! KStr name)
  /\ (_cache (snd r) !! KStr name <> _cache c !! KStr name ->
        exists body rs asns,
          resp = RStr body /\ classify (Str.upper body) = route_set
          /\ fst r = Ret (Pair rs asns) /\ RouteSet_bool rs = true
          /\ _cache (snd r) !! KStr name = Some rs).
Proof.
  intros Hf r.
  assert (Hsame : _cache (snd r) !! KStr name = _cache c !! KStr name)
    by exact (f_equal snd (preserves_get_data_by_set name c)).
  split; [exact (get_data_by_set_fetched name c resp c1 Hf)|].
  split; [intros; exact Hsame|].
  split; [intros; exact Hsame|].
  intros Hdiff. contradiction.
Qed.

Lemma set_entry_written_only_for_route_set_witness :
  let c := session true [line "A8"; line "AS65000"; line "C";
                         line "A13"; line "192.0.2.0/24"; line "C"; line "D"] in
  let r := get_data_by_set "AS-EXAMPLE" c in
  fst r = Ret (Pair {| aggregated := true; ip4 := [net_192_0_2_0]; ip6 := [] |} [65000])
  /\ _cache (snd r) !! KStr "AS-EXAMPLE" = _cache c !! KStr "AS-EXAMPLE"
  /\ _cache (snd r) !! KInt 65000
     = Some {| aggregated := true; ip4 := [net_192_0_2_0]; ip6 := [] |}.
Proof.
  intros c r. split; [reflexivity|]. split; [|reflexivity].
  pose (c1 := snd ((logging (Debug_fetching_routes "AS-EXAMPLE") ;;
                    _send ("!i" +:+ "AS-EXAMPLE" +:+ ",1" +:+ LF) ;;
                    _response) c)).
  assert (Hf : fetched "AS-EXAMPLE" c (RStr "AS65000") c1)
    by (split; reflexivity).
  destruct (set_entry_written_only_for_route_set "AS-EXAMPLE" c (RStr "AS65000") c1 Hf)
    as (_ & Has & _).
  apply (Has "AS65000"); reflexivity.
Defined.

(** ** The commands of a cache miss *)

Lemma sends_bind {A B} (os1 os2 : list string) (m : M A) (k : A -> M B) :
  sends os1 m -> (forall a, sends os2 (k a)) -> sends (os1 ++ os2) (bind m k).
Proof.
  intros Hm Hk c b c2 H.
  apply bind_Ret_inv in H as (a & c1 & E1 & E2).
  destruct (Hm c a c1 E1) as [S1 W1]. destruct (Hk a c1 b c2 E2) as [S2 W2].
  split; [congruence|]. intros sk Hs Hw.
  rewrite (W2 _ (W1 sk Hs Hw) eq_refl). cbn [sent]. rewrite app_assoc. reflexivity.
Qed.

Lemma sends_nothing {A} (m : M A) :
  preserves store m -> preserves s m -> sends [] m.
Proof.
  intros Hst Hs c a c' H. specialize (Hst c). specialize (Hs c).
  rewrite H in Hst, Hs. simpl in Hst, Hs. split; [exact Hst|].
  intros sk Hsk Hw. rewrite Hs, Hsk, app_nil_r. destruct sk as [l w].
  simpl in Hw. subst w. reflexivity.
Qed.

Lemma sends_send (output : string) : sends [output] (_send output).
Proof.
  intros c a c'. unfold _send. cbn [s with_lastcommand].
  destruct (s c) as [sk0|]; [|discriminate].
  destruct (write_error sk0) eqn:Hw0; intros H; inversion H; subst;
    (split; [reflexivity|]); intros sk Hsk Hw; inversion Hsk; subst; [congruence|].
  reflexivity.
Qed.

Lemma preserves_s_response : preserves s _response.
Proof.
  assert (Hrl : preserves s _readline)
    by (intros c; unfold _readline; destruct (f c) as [[|l ls]|]; reflexivity).
  assert (Hlog : forall r, preserves s (logging r)) by (intros r c; reflexivity).
  assert (Hrb : forall n, preserves s (_read_body n)).
  { intros n c. unfold _read_body.
    destruct (Str.len EmptyString <? n); [|reflexivity].
    destruct (f c) as [lines|]; [|reflexivity].
    destruct (read_data n EmptyString lines) as [[data rest]|]; reflexivity. }
  unfold _response. apply preserves_bind; [exact Hrl|]. intros l.
  destruct (Str.rstrip l) as [|code rest]; repeat preserves_step.
Qed.

Lemma sends_response : sends [] _response.
Proof. apply sends_nothing; [apply preserves_response | apply preserves_s_response]. Qed.

(** [for r in response.split(): routes.add(r)] under [if response]. *)
Lemma sends_add_tokens `{L : IPy} (routes : RouteSet) (response : response) :
  sends [] (if truthy response then
              match response with
              | RStr body =>
                  lift (RouteSet_add_all routes (map ItemStr (Str.split body)))
              | RBool _ => raise AttributeError
              end
            else ret routes).
Proof. apply sends_nothing; repeat preserves_step. Qed.

(** The end of a miss: the entry is written and the [RouteSet] returned. *)
Lemma set_cache_and_return (n : Z) (routes : RouteSet)
    (c c1 : IRRClient) (r : option RouteSet) :
  caching c = true ->
  bind (_set_cache (KInt n) routes) (fun _ => ret (Some routes)) c = (Ret r, c1) ->
  r = Some routes /\ c1 = with_cache (<[KInt n := routes]> (_cache c)) c.
Proof.
  intros Hc. unfold bind, _set_cache, ret. rewrite Hc. intros H.
  inversion H. split; reflexivity.
Qed.

(** A call that misses the cache: what it has sent and stored when it
    returns. *)
Lemma get_routes_by_origin_miss `{L : IPy}
    (origin : pyval) (n : Z) (c c1 : IRRClient) (r : option RouteSet) :
  int_of origin = Some n -> caching c = true -> _cache c !! KInt n = None ->
  get_routes_by_origin origin c = (Ret r, c1) ->
  exists routes,
    r = Some routes
    /\ _cache c1 = <[KInt n := routes]> (_cache c)
    /\ settings c1 = settings c
    /\ forall sk, s c = Some sk -> write_error sk = None ->
         s c1 = Some {| sent := sent sk
                                ++ line ("!gAS" +:+ Str.of_int n)
                                   :: (if ipv6 c then [line ("!6AS" +:+ Str.of_int n)]
                                       else []);
                        write_error := None |}.
Proof.
  intros Hn Hc Hmiss. unfold get_routes_by_origin. rewrite Hn.
  unfold bind at 1. cbn [self].
  unfold _is_cached. rewrite Hmiss, Hc. cbn [bool_decide andb]. cbv zeta.
  rewrite bool_decide_eq_false_2 by (intros [x Hx]; discriminate).
  intros H.
  apply bind_Ret_inv in H as (b1 & ca & E1 & H).
  apply bind_Ret_inv in H as (resp & cb & E2 & H).
  apply bind_Ret_inv in H as (routes1 & cc & E3 & H).
  apply bind_Ret_inv in H as (routes2 & cd & E4 & H).
  destruct (sends_send _ _ _ _ E1) as [S1 W1].
  destruct (sends_response _ _ _ E2) as [S2 W2].
  destruct (sends_add_tokens _ _ _ _ _ E3) as [S3 W3].
  assert (Y : sends (if ipv6 c then [line ("!6AS" +:+ Str.of_int n)] else [])
                (if ipv6 c
                 then bind (_send ("!6AS" +:+ Str.of_int n +:+ LF)) (fun _ =>
                      bind _response (fun response =>
                        if truthy response then
                          match response with
                          | RStr body =>
                              lift (RouteSet_add_all routes1
                                      (map ItemStr (Str.split body)))
                          | RBool _ => raise AttributeError
                          end
                        else ret routes1))
                 else ret routes1)).
  { destruct (ipv6 c).
    - apply (sends_bind [_] []); [apply sends_send|]. intros _.
      apply (sends_bind [] []); [apply sends_response|]. intros response.
      apply sends_add_tokens.
    - apply sends_nothing; auto with frame. }
  destruct (Y _ _ _ E4) as [S4 W4].
  assert (Hst : store cd = store c) by congruence.
  assert (Hcd : caching cd = true)
    by (apply (f_equal (fun p => fst (fst (fst p)))) in Hst; simpl in Hst; congruence).
  destruct (set_cache_and_return n routes2 cd c1 r Hcd H) as [-> ->].
  exists routes2. split; [reflexivity|].
  apply (f_equal snd) in Hst as Hcache. apply (f_equal fst) in Hst as Hset.
  simpl in Hcache, Hset.
  split; [cbn; rewrite Hcache; reflexivity|].
  split; [exact Hset|].
  intros sk Hs Hw. cbn [s with_cache].
  rewrite (W4 _ (W3 _ (W2 _ (W1 sk Hs Hw) eq_refl) eq_refl) eq_refl).
  cbn [sent]. rewrite !app_nil_r, <- app_assoc. reflexivity.
Qed.

(** A call that finds the origin in the cache. *)
Lemma get_routes_by_origin_hit `{L : IPy}
    (origin : pyval) (n : Z) (rs : RouteSet) (c : IRRClient) :
  int_of origin = Some n -> caching c = true -> _cache c !! KInt n = Some rs ->
  get_routes_by_origin origin c = (Ret (Some rs), c).
Proof.
  intros Hn Hc Hk. unfold get_routes_by_origin. rewrite Hn.
  unfold bind, self, _is_cached, _get_cache, ret. rewrite Hc, Hk. reflexivity.
Qed.

(** ** Repeated origin queries *)

(** C4, as the code has it.  With caching enabled, let a call of
    [get_routes_by_origin] for the origin [n] return.  Then the
    [RouteSet] it returned is the cache entry of [n]; the next call, and
    every later call made while the entry is in place, returns that
    [RouteSet] and leaves the client as it is, so that nothing is sent or
    read; and if the first call missed the cache, the commands of that
    origin are those it has sent: the IPv4 query and, [self.ipv6] being
    set, the IPv6 query after it. *)
Theorem cached_origin_sends_nothing `{L : IPy}
    (origin : pyval) (n : Z) (c c1 : IRRClient) (r : option RouteSet) :
  int_of origin = Some n ->
  caching c = true ->
  get_routes_by_origin origin c = (Ret r, c1) ->
  (exists rs, r = Some rs /\ _cache c1 !! KInt n = Some rs)
  /\ get_routes_by_origin origin c1 = (Ret r, c1)
  /\ (forall c2, caching c2 = true -> _cache c2 !! KInt n = _cache c1 !! KInt n ->
        get_routes_by_origin origin c2 = (Ret r, c2))
  /\ (_cache c !! KInt n = None ->
      forall sk, s c = Some sk -> write_error sk = None ->
        commands c1
        = (sent sk ++ line ("!gAS" +:+ Str.of_int n)
                      :: (if ipv6 c then [line ("!6AS" +:+ Str.of_int n)] else []))%list).
Proof.
  intros Hn Hc H.
  assert (Hentry : exists rs, r = Some rs /\ _cache c1 !! KInt n = Some rs
                              /\ caching c1 = true).
  { destruct (_cache c !! KInt n) as [rs|] eqn:Hk.
    - rewrite (get_routes_by_origin_hit origin n rs c Hn Hc Hk) in H.
      inversion H; subst. exists rs. auto.
    - destruct (get_routes_by_origin_miss origin n c c1 r Hn Hc Hk H)
        as (routes & -> & Hcache & Hset & _).
      exists routes. split; [reflexivity|]. split.
      + rewrite Hcache. apply lookup_insert_eq.
      + apply (f_equal (fun p => fst (fst p))) in Hset. simpl in Hset. congruence. }
  destruct Hentry as (rs & -> & Hk1 & Hc1).
  split; [exists rs; auto|].
  split; [exact (get_routes_by_origin_hit origin n rs c1 Hn Hc1 Hk1)|].
  split.
  - intros c2 Hc2 Hk2. rewrite Hk1 in Hk2.
    exact (get_routes_by_origin_hit origin n rs c2 Hn Hc2 Hk2).
  - intros Hmiss sk Hs Hw.
    destruct (get_routes_by_origin_miss origin n c c1 _ Hn Hc Hmiss H)
      as (routes & _ & _ & _ & Hsent).
    unfold commands. rewrite (Hsent sk Hs Hw). reflexivity.
Qed.

Lemma cached_origin_sends_nothing_witness :
  let c := session true [line "A13"; line "192.0.2.0/24"; line "C"; line "D"] in
  let r := Some {| aggregated := true; ip4 := [net_192_0_2_0]; ip6 := [] |} in
  let c1 := snd (get_routes_by_origin (VInt 65000) c) in
  get_routes_by_origin (VInt 65000) c = (Ret r, c1)
  /\ get_routes_by_origin (VInt 65000) c1 = (Ret r, c1)
  /\ commands c1
     = [line "!!"; line "!nirrpt-ng"; line "!gAS65000"; line "!6AS65000"].
Proof.
  intros c r c1.
  assert (H : get_routes_by_origin (VInt 65000) c = (Ret r, c1))
    by (vm_compute; reflexivity).
  assert (Hc : caching c = true) by (vm_compute; reflexivity).
  assert (Hk : _cache c !! KInt 65000 = None) by (vm_compute; reflexivity).
  assert (Hs : s c = Some {| sent := [line "!!"; line "!nirrpt-ng"];
                             write_error := None |})
    by (vm_compute; reflexivity).
  destruct (cached_origin_sends_nothing (VInt 65000) 65000 c c1 r eq_refl Hc H)
    as (_ & Hagain & _ & Hsent).
  split; [exact H|]. split; [exact Hagain|].
  rewrite (Hsent Hk _ Hs eq_refl). vm_compute. reflexivity.
Defined.

(** C4, as it is written, fails on its count: on the client as [__init__]
    builds it, the first call for AS65000 returns after two commands,
    [!gAS65000] and [!6AS65000], not one. *)
Lemma two_round_trips_for_one_origin :
  let c := session true [line "A13"; line "192.0.2.0/24"; line "C"; line "D"] in
  caching c = true
  /\ fst (get_routes_by_origin (VInt 65000) c)
     = Ret (Some {| aggregated := true; ip4 := [net_192_0_2_0]; ip6 := [] |})
  /\ ~ one_round_trip 65000 c.
Proof.
  intros c. split; [vm_compute; reflexivity|]. split; [vm_compute; reflexivity|].
  intros [cmd H]. vm_compute in H. discriminate.
Qed.

(** * Further properties of the code *)

(** ** The codec on data, end of file and short streams *)

(** A data response, in full: what is returned, what is left of the
    stream, and what was logged. *)
Lemma _response_data (c : IRRClient) (h text footer : string) (datalen : Z)
    (body rest : list string) :
  f c = Some (h :: body ++ footer :: rest) ->
  Str.rstrip h = String "A" text ->
  Str.int text = Some datalen ->
  is_body datalen body ->
  fst (_response c) = Ret (RStr (Str.rstrip (join body)))
  /\ f (snd (_response c)) = Some rest
  /\ log (snd (_response c))
     = (log c ++ if Str.len (join body) =? datalen then []
                 else [Error_length_mismatch])%list
  /\ s (snd (_response c)) = s c
  /\ store (snd (_response c)) = store c
  /\ lastcommand (snd (_response c)) = lastcommand c.
Proof.
  intros Hf Hh Hint Hbody. unfold _response, bind, _readline. rewrite Hf, Hh.
  cbn [Ascii.eqb Bool.eqb]. rewrite Hint. unfold _read_body.
  destruct (Str.len EmptyString <? datalen) eqn:Hpos.
  - cbn [f with_f]. rewrite (read_data_body datalen body _ Hbody).
    destruct (Str.len (join body) =? datalen); cbn;
      rewrite ?app_nil_r; repeat split; reflexivity.
  - destruct Hbody as [[-> _] | (init & last & -> & Hlt & _)].
    + change (join []) with EmptyString.
      destruct (Str.len EmptyString =? datalen); cbn;
        rewrite ?app_nil_r; repeat split; reflexivity.
    + apply Z.ltb_ge in Hpos. rewrite len_empty in Hpos.
      pose proof (len_nonneg (join init)). lia.
Qed.

(** X1.  The length check is permissive: a data response is returned
    whether or not the lines read add up to the announced length, and the
    mismatch error is logged exactly when they do not; nothing else is
    logged. *)
Theorem response_length_mismatch_logged (c : IRRClient) (h text footer : string)
    (datalen : Z) (body rest : list string) :
  f c = Some (h :: body ++ footer :: rest) ->
  Str.rstrip h = String "A" text ->
  Str.int text = Some datalen ->
  is_body datalen body ->
  fst (_response c) = Ret (RStr (Str.rstrip (join body)))
  /\ (Str.len (join body) = datalen -> log (snd (_response c)) = log c)
  /\ (Str.len (join body) <> datalen ->
      log (snd (_response c)) = (log c ++ [Error_length_mismatch])%list).
Proof.
  intros Hf Hh Hint Hbody.
  destruct (_response_data c h text footer datalen body rest Hf Hh Hint Hbody)
    as (Hr & _ & Hlog & _).
  split; [exact Hr|]. split; intros Hlen; rewrite Hlog.
  - apply Z.eqb_eq in Hlen. rewrite Hlen. apply app_nil_r.
  - apply Z.eqb_neq in Hlen. rewrite Hlen. reflexivity.
Qed.

Lemma response_length_mismatch_logged_witness :
  let c := session true [line "A5"; line "hello"; line "C"] in
  fst (_response c) = Ret (RStr "hello")
  /\ log (snd (_response c)) = (log c ++ [Error_length_mismatch])%list.
Proof.
  intros c.
  assert (Hb : is_body 5 [line "hello"])
    by (right; exists [], (line "hello"); repeat split; vm_compute; congruence).
  destruct (response_length_mismatch_logged c (line "A5") "5" (line "C") 5
              [line "hello"] [] eq_refl eq_refl eq_refl Hb) as (Hr & _ & Hlog).
  split; [exact Hr|]. apply Hlog. vm_compute. discriminate.
Defined.

Lemma read_data_short (datalen : Z) (lines : list string) :
  forall data : string,
    Str.len data + Str.len (join lines) < datalen ->
    read_data datalen data lines = None.
Proof.
  induction lines as [|l ls IH]; intros data H.
  - rewrite join_nil, len_empty in H. cbn [read_data].
    replace (Str.len data <? datalen) with true by (symmetry; apply Z.ltb_lt; lia).
    reflexivity.
  - rewrite join_cons, len_append in H. pose proof (len_nonneg l).
    pose proof (len_nonneg (join ls)).
    rewrite read_data_more by lia. apply IH. rewrite len_append. lia.
Qed.

(** X2.  A data response that announces more characters than the stream
    will deliver never returns: at end of file [readline] yields the empty
    string and the loop goes on. *)
Theorem response_short_stream_hangs (c : IRRClient) (h text : string)
    (datalen : Z) (rest : list string) :
  f c = Some (h :: rest) ->
  Str.rstrip h = String "A" text ->
  Str.int text = Some datalen ->
  Str.len (join rest) < datalen ->
  fst (_response c) = Hang.
Proof.
  intros Hf Hh Hint Hlen. unfold _response, bind, _readline. rewrite Hf, Hh.
  cbn [Ascii.eqb Bool.eqb]. rewrite Hint. unfold _read_body.
  pose proof (len_nonneg (join rest)).
  replace (Str.len EmptyString <? datalen) with true
    by (symmetry; apply Z.ltb_lt; rewrite len_empty; lia).
  cbn [f with_f]. rewrite read_data_short by (rewrite len_empty; lia).
  reflexivity.
Qed.

Lemma response_short_stream_hangs_witness :
  fst (_response (session true [line "A50"; line "192.0.2.0/24"; line "C"])) = Hang.
Proof.
  apply (response_short_stream_hangs _ (line "A50") "50" 50
           [line "192.0.2.0/24"; line "C"]);
    try reflexivity.
Defined.

(** X3.  Without a header there is an exception, not a failure value: at
    end of file, and on a line of whitespace only, [_response] raises
    [IndexError]; on a client without a stream it raises [AttributeError].
    Nothing is logged and the store is kept. *)
Theorem response_without_header (c : IRRClient) :
  (f c = None -> _response c = (Raise AttributeError, c))
  /\ (f c = Some [] -> _response c = (Raise IndexError, c))
  /\ (forall h rest, f c = Some (h :: rest) -> Str.rstrip h = EmptyString ->
        fst (_response c) = Raise IndexError
        /\ f (snd (_response c)) = Some rest
        /\ log (snd (_response c)) = log c).
Proof.
  unfold _response, bind, _readline. repeat split.
  - intros ->. reflexivity.
  - intros ->. reflexivity.
  - rewrite H, H0. reflexivity.
  - rewrite H, H0. reflexivity.
  - rewrite H, H0. reflexivity.
Qed.

Lemma response_without_header_witness :
  _response (session true []) = (Raise IndexError, session true [])
  /\ fst (_response (session true [LF; line "C"])) = Raise IndexError
  /\ _response (IRRClient_init "whois.radb.net" 43 true true true)
     = (Raise AttributeError, IRRClient_init "whois.radb.net" 43 true true true).
Proof.
  split; [|split].
  - apply (proj1 (proj2 (response_without_header (session true [])))). reflexivity.
  - apply (proj2 (proj2 (response_without_header (session true [LF; line "C"])))
             LF [line "C"]); reflexivity.
  - apply (proj1 (response_without_header _)). reflexivity.
Defined.

(** ** Sending, and responses without data *)

(** [_send] on a client with a socket, in full. *)
Lemma _send_some (output : string) (c : IRRClient) (sk : socket) :
  s c = Some sk ->
  exists b c',
    _send output c = (Ret b, c')
    /\ f c' = f c /\ store c' = store c
    /\ lastcommand c' = Some (Str.rstrip output)
    /\ log c' = (log c ++ write_log sk)%list
    /\ s c' = Some {| sent := written sk output; write_error := write_error sk |}.
Proof.
  intros H. unfold _send, write_log, written. cbn [s with_lastcommand]. rewrite H.
  destruct sk as [l [msg|]]; cbn; eexists _, _; repeat split;
    rewrite ?app_nil_r; try reflexivity. exact H.
Qed.

Lemma _send_none (output : string) (c : IRRClient) :
  s c = None ->
  _send output c = (Raise AttributeError, with_lastcommand (Some (Str.rstrip output)) c).
Proof. intros H. unfold _send. cbn [s with_lastcommand]. rewrite H. reflexivity. Qed.

(** A response without data: the header alone is read. *)
Lemma _response_no_data (c : IRRClient) (h : string) (rest : list string)
    (code : ascii) (text : string) :
  f c = Some (h :: rest) ->
  Str.rstrip h = String code text ->
  code <> "A"%char ->
  fst (_response c)
  = Ret (RBool (Ascii.eqb code "C" || Ascii.eqb code "E"))
  /\ f (snd (_response c)) = Some rest
  /\ s (snd (_response c)) = s c
  /\ store (snd (_response c)) = store c
  /\ lastcommand (snd (_response c)) = lastcommand c
  /\ log (snd (_response c))
     = (log c ++ if Ascii.eqb code "C" then []
                 else if Ascii.eqb code "D"
                      then [Warning_key_not_found (lastcommand c)]
                 else if Ascii.eqb code "E" then []
                 else if Ascii.eqb code "F" then [Warning_query_failed text]
                 else [Error_parse_length])%list.
Proof.
  intros Hf Hh Hcode. unfold _response, bind, _readline. rewrite Hf, Hh.
  destruct (Ascii.eqb code "C") eqn:EC;
    [cbn; rewrite app_nil_r; repeat split; reflexivity|].
  destruct (Ascii.eqb code "D") eqn:ED;
    [apply Ascii.eqb_eq in ED; subst code; cbn; repeat split; reflexivity|].
  destruct (Ascii.eqb code "E") eqn:EE;
    [cbn; rewrite app_nil_r; repeat split; reflexivity|].
  destruct (Ascii.eqb code "F") eqn:EF;
    [apply Ascii.eqb_eq in EF; subst code; cbn; repeat split; reflexivity|].
  destruct (Ascii.eqb code "A") eqn:EA;
    [apply Ascii.eqb_eq in EA; contradiction|].
  cbn. repeat split; reflexivity.
Qed.

(** A command, its response known, and what is made of the response. *)
Lemma query_outcome {B} (cmd : string) (k : response -> M B)
    (c : IRRClient) (sk : socket) (r : response) (o : result B) :
  s c = Some sk ->
  (forall c', f c' = f c -> fst (_response c') = Ret r) ->
  (forall c1, fst (k r c1) = o) ->
  fst (bind (_send cmd) (fun _ => bind _response k) c) = o.
Proof.
  intros Hs Hr Hk. destruct (_send_some cmd c sk Hs) as (b0 & c' & E & Ef & _).
  rewrite (bind_Ret _ _ _ _ _ E). specialize (Hr c' Ef). unfold bind.
  destruct (_response c') as [r0 c1]. simpl in Hr. subst r0. apply Hk.
Qed.

(** X4.  A response that reports success without data ([C] or [E]) makes
    [_response] return [True].  [get_sources] returns it; the methods that
    go on to split the response raise [AttributeError]: [set_sources],
    [get_members_by_set], and, when the cache does not answer,
    [get_routes_by_origin] and [get_data_by_set]. *)
Theorem success_without_data_raises `{L : IPy}
    (c : IRRClient) (sk : socket) (h : string) (rest : list string)
    (code : ascii) (text : string)
    (sources name : string) (recursive : bool) (origin : pyval) (n : Z) :
  s c = Some sk ->
  f c = Some (h :: rest) ->
  Str.rstrip h = String code text ->
  code = "C"%char \/ code = "E"%char ->
  int_of origin = Some n ->
  fst (get_sources c) = Ret (RBool true)
  /\ fst (set_sources sources c) = Raise AttributeError
  /\ fst (get_members_by_set name recursive c) = Raise AttributeError
  /\ (_is_cached c (KInt n) = false ->
      fst (get_routes_by_origin origin c) = Raise AttributeError)
  /\ (_is_cached c (KStr name) = false ->
      fst (get_data_by_set name c) = Raise AttributeError).
Proof.
  intros Hs Hf Hh Hcode Hn.
  assert (HT : forall c', f c' = f c -> fst (_response c') = Ret (RBool true)).
  { intros c' E. rewrite Hf in E.
    destruct (_response_no_data c' h rest code text E Hh) as (Hr & _).
    - destruct Hcode as [-> | ->]; discriminate.
    - rewrite Hr. destruct Hcode as [-> | ->]; reflexivity. }
  repeat split.
  - apply (query_outcome _ _ c sk _ _ Hs HT). reflexivity.
  - apply (query_outcome _ _ c sk _ _ Hs HT). reflexivity.
  - unfold get_members_by_set. unfold bind at 1. cbn [logging].
    destruct recursive;
      apply (query_outcome _ _ (with_log _ c) sk _ _ Hs HT); reflexivity.
  - intros Hmiss. unfold get_routes_by_origin. rewrite Hn.
    unfold bind at 1. cbn [self]. rewrite Hmiss. cbv zeta.
    apply (query_outcome _ _ c sk _ _ Hs HT). reflexivity.
  - intros Hmiss. unfold get_data_by_set.
    unfold bind at 1. cbn [self]. rewrite Hmiss. cbv zeta.
    unfold bind at 1. cbn [logging].
    apply (query_outcome _ _ (with_log _ c) sk _ _ Hs HT). reflexivity.
Qed.

Lemma success_without_data_raises_witness :
  let c := session true [line "C"] in
  fst (get_sources c) = Ret (RBool true)
  /\ fst (set_sources "RADB" c) = Raise AttributeError
  /\ fst (get_members_by_set "AS-EXAMPLE" false c) = Raise AttributeError
  /\ fst (get_routes_by_origin (VInt 65000) c) = Raise AttributeError.
Proof.
  intros c.
  destruct (success_without_data_raises c
              {| sent := [line "!!"; line "!nirrpt-ng"]; write_error := None |}
              (line "C") [] "C" "" "RADB" "AS-EXAMPLE" false (VInt 65000) 65000
              eq_refl eq_refl eq_refl (or_introl eq_refl) eq_refl)
    as (H1 & H2 & H3 & H4 & _).
  split; [exact H1|]. split; [exact H2|]. split; [exact H3|].
  apply H4. reflexivity.
Defined.

(** X5.  On a client without a socket every method that queries raises
    [AttributeError] at its first write, before anything is read; the
    command it meant to send is recorded as the last command all the
    same.  The cache still answers what it holds. *)
Theorem query_without_socket_raises `{L : IPy}
    (c : IRRClient) (sources name : string) (recursive : bool)
    (origin : pyval) (n : Z) :
  s c = None ->
  int_of origin = Some n ->
  (fst (get_sources c) = Raise AttributeError
   /\ f (snd (get_sources c)) = f c
   /\ lastcommand (snd (get_sources c)) = Some "!s-lc")
  /\ (fst (set_sources sources c) = Raise AttributeError
      /\ f (snd (set_sources sources c)) = f c)
  /\ (fst (get_members_by_set name recursive c) = Raise AttributeError
      /\ f (snd (get_members_by_set name recursive c)) = f c)
  /\ (_is_cached c (KInt n) = false ->
      fst (get_routes_by_origin origin c) = Raise AttributeError
      /\ f (snd (get_routes_by_origin origin c)) = f c
      /\ _cache (snd (get_routes_by_origin origin c)) = _cache c)
  /\ (_is_cached c (KStr name) = false ->
      fst (get_data_by_set name c) = Raise AttributeError
      /\ f (snd (get_data_by_set name c)) = f c)
  /\ (forall rs, caching c = true -> _cache c !! KInt n = Some rs ->
      get_routes_by_origin origin c = (Ret (Some rs), c)).
Proof.
  intros Hs Hn.
  assert (HS : forall {B} cmd (k : bool -> M B) c0, s c0 = None ->
             bind (_send cmd) k c0
             = (Raise AttributeError, with_lastcommand (Some (Str.rstrip cmd)) c0)).
  { intros B cmd k c0 H0. unfold bind. rewrite (_send_none cmd c0 H0). reflexivity. }
  repeat split.
  - unfold get_sources. rewrite (HS _ _ _ c Hs). reflexivity.
  - unfold get_sources. rewrite (HS _ _ _ c Hs). reflexivity.
  - unfold get_sources. rewrite (HS _ _ _ c Hs). reflexivity.
  - unfold set_sources. rewrite (HS _ _ _ c Hs). reflexivity.
  - unfold set_sources. rewrite (HS _ _ _ c Hs). reflexivity.
  - unfold get_members_by_set. unfold bind at 1. cbn [logging].
    destruct recursive; rewrite HS by exact Hs; reflexivity.
  - unfold get_members_by_set. unfold bind at 1. cbn [logging].
    destruct recursive; rewrite HS by exact Hs; reflexivity.
  - unfold get_routes_by_origin. rewrite Hn. unfold bind at 1. cbn [self].
    rewrite H. cbv zeta. rewrite (HS _ _ _ c Hs). reflexivity.
  - unfold get_routes_by_origin. rewrite Hn. unfold bind at 1. cbn [self].
    rewrite H. cbv zeta. rewrite (HS _ _ _ c Hs). reflexivity.
  - unfold get_routes_by_origin. rewrite Hn. unfold bind at 1. cbn [self].
    rewrite H. cbv zeta. rewrite (HS _ _ _ c Hs). reflexivity.
  - unfold get_data_by_set. unfold bind at 1. cbn [self]. rewrite H. cbv zeta.
    unfold bind at 1. cbn [logging]. rewrite HS by exact Hs. reflexivity.
  - unfold get_data_by_set. unfold bind at 1. cbn [self]. rewrite H. cbv zeta.
    unfold bind at 1. cbn [logging]. rewrite HS by exact Hs. reflexivity.
  - intros rs Hc Hk. exact (get_routes_by_origin_hit origin n rs c Hn Hc Hk).
Qed.

Lemma query_without_socket_raises_witness :
  let c := IRRClient_init "whois.radb.net" 43 true true true in
  fst (get_sources c) = Raise AttributeError
  /\ fst (get_routes_by_origin (VStr "65000") c) = Raise AttributeError
  /\ fst (get_data_by_set "AS-EXAMPLE" c) = Raise AttributeError.
Proof.
  intros c.
  destruct (query_without_socket_raises c "RADB" "AS-EXAMPLE" true (VStr "65000") 65000
              eq_refl eq_refl)
    as ((H1 & _) & _ & _ & H4 & H5 & _).
  split; [exact H1|]. split; [apply H4 | apply H5]; reflexivity.
Defined.

(** ** connect, when the connection is made *)

Lemma _multi_some (c : IRRClient) (sk : socket) :
  s c = Some sk ->
  exists c',
    _multi c = (Ret true, c')
    /\ f c' = f c /\ store c' = store c
    /\ log c' = (log c ++ write_log sk)%list
    /\ s c' = Some {| sent := written sk (line "!!"); write_error := write_error sk |}.
Proof.
  intros Hs. unfold _multi.
  destruct (_send_some (line "!!") c sk Hs) as (b & c' & E & Hf & Hst & _ & Hlog & Hs').
  exists c'. rewrite (bind_Ret _ _ _ _ _ E). repeat split; assumption.
Qed.

Lemma _identify_no_data (c : IRRClient) (sk : socket)
    (h : string) (rest : list string) (code : ascii) (text : string) :
  s c = Some sk ->
  f c = Some (h :: rest) ->
  Str.rstrip h = String code text ->
  code <> "A"%char ->
  fst (_identify c) = Ret true
  /\ f (snd (_identify c)) = Some rest
  /\ store (snd (_identify c)) = store c
  /\ log (snd (_identify c))
     = (log c ++ write_log sk ++ no_data_log code text (Some "!nirrpt-ng"))%list
  /\ s (snd (_identify c))
     = Some {| sent := written sk (line "!nirrpt-ng"); write_error := write_error sk |}.
Proof.
  intros Hs Hf Hh Hcode. unfold _identify.
  destruct (_send_some (line "!nirrpt-ng") c sk Hs)
    as (b & c1 & E & Hf1 & Hst1 & Hlast & Hlog1 & Hs1).
  rewrite (bind_Ret _ _ _ _ _ E). rewrite <- Hf1 in Hf.
  destruct (_response_no_data c1 h rest code text Hf Hh Hcode)
    as (Hr & Hf2 & Hs2 & Hst2 & _ & Hlog2).
  unfold bind. destruct (_response c1) as [r2 c2]. simpl in *. subst r2. simpl.
  repeat split; try congruence.
  rewrite Hlog2, Hlog1, Hlast. unfold no_data_log. rewrite <- app_assoc. reflexivity.
Qed.

(** X6.  Once the connection is made, [connect()] reports success whatever
    comes of the handshake: the statuses of the two writes are dropped, and
    so is the response to the identification, be it [C], [D], [F] or an
    unknown code.  Both commands are written if the socket takes them, one
    line is read, and the store is kept. *)
Theorem connect_ignores_handshake (c : IRRClient) (we : option string)
    (h : string) (rest : list string) (code : ascii) (text : string) :
  Str.rstrip h = String code text ->
  code <> "A"%char ->
  let r := connect (Connected we (h :: rest)) c in
  fst r = Ret true
  /\ f (snd r) = Some rest
  /\ s (snd r)
     = Some {| sent := match we with
                       | None => [line "!!"; line "!nirrpt-ng"]
                       | Some _ => []
                       end;
               write_error := we |}
  /\ store (snd r) = store c
  /\ log (snd r)
     = (log c ++ [Debug_connecting (host c) (port c)]
          ++ match we with
             | None => []
             | Some msg => [Error_write msg; Error_write msg]
             end
          ++ no_data_log code text (Some "!nirrpt-ng"))%list.
Proof.
  intros Hh Hcode r. subst r.
  set (c1 := with_f (Some (h :: rest))
               (with_s (Some {| sent := []; write_error := we |})
                  (with_log (log c ++ [Debug_connecting (host c) (port c)]) c))).
  change (connect (Connected we (h :: rest)) c)
    with (bind _multi (fun _ => bind _identify (fun _ => ret true)) c1).
  destruct (_multi_some c1 {| sent := []; write_error := we |} eq_refl)
    as (c2 & E & Hf2 & Hst2 & Hlog2 & Hs2).
  rewrite (bind_Ret _ _ _ _ _ E).
  assert (Hf2' : f c2 = Some (h :: rest)) by (rewrite Hf2; reflexivity).
  destruct (_identify_no_data c2 _ h rest code text Hs2 Hf2' Hh Hcode)
    as (Hr & Hf3 & Hst3 & Hlog3 & Hs3).
  unfold bind. destruct (_identify c2) as [r3 c3]. simpl in *. subst r3. simpl.
  split; [reflexivity|]. split; [exact Hf3|].
  split; [rewrite Hs3; destruct we; reflexivity|].
  split; [rewrite Hst3, Hst2; reflexivity|].
  rewrite Hlog3, Hlog2. destruct we; cbn; rewrite <- ?app_assoc; reflexivity.
Qed.

Lemma connect_ignores_handshake_witness :
  let c := IRRClient_init "whois.radb.net" 43 true true true in
  let r := connect (Connected None [line "F unknown command"; line "A6"]) c in
  fst r = Ret true
  /\ f (snd r) = Some [line "A6"]
  /\ log (snd r)
     = [Debug_connecting "whois.radb.net" 43; Warning_query_failed " unknown command"].
Proof.
  intros c r.
  destruct (connect_ignores_handshake c None (line "F unknown command") [line "A6"]
              "F" " unknown command" eq_refl)
    as (H1 & H2 & _ & _ & H5); [discriminate|].
  split; [exact H1|]. split; [exact H2|]. exact H5.
Defined.

(** ** The queries on a known response *)

(** A command answered without data. *)
Lemma query_no_data {B} (cmd : string) (k : response -> M B)
    (c : IRRClient) (sk : socket) (h : string) (rest : list string)
    (code : ascii) (text : string) :
  s c = Some sk ->
  f c = Some (h :: rest) ->
  Str.rstrip h = String code text ->
  code <> "A"%char ->
  exists c1,
    bind (_send cmd) (fun _ => bind _response k) c
    = k (RBool (Ascii.eqb code "C" || Ascii.eqb code "E")) c1
    /\ f c1 = Some rest
    /\ store c1 = store c
    /\ log c1 = (log c ++ write_log sk
                   ++ no_data_log code text (Some (Str.rstrip cmd)))%list
    /\ s c1 = Some {| sent := written sk cmd; write_error := write_error sk |}.
Proof.
  intros Hs Hf Hh Hcode.
  destruct (_send_some cmd c sk Hs) as (b & c0 & E & Hf0 & Hst0 & Hlast & Hlog0 & Hs0).
  rewrite (bind_Ret _ _ _ _ _ E). rewrite <- Hf0 in Hf.
  destruct (_response_no_data c0 h rest code text Hf Hh Hcode)
    as (Hr & Hf1 & Hs1 & Hst1 & _ & Hlog1).
  unfold bind. destruct (_response c0) as [r1 c1]. simpl in *. subst r1.
  exists c1. split; [reflexivity|]. repeat split; try congruence.
  rewrite Hlog1, Hlog0, Hlast. unfold no_data_log. rewrite <- app_assoc. reflexivity.
Qed.

(** A command answered with data. *)
Lemma query_data {B} (cmd : string) (k : response -> M B)
    (c : IRRClient) (sk : socket) (h text footer : string) (datalen : Z)
    (body rest : list string) :
  s c = Some sk ->
  f c = Some (h :: body ++ footer :: rest) ->
  Str.rstrip h = String "A" text ->
  Str.int text = Some datalen ->
  is_body datalen body ->
  exists c1,
    bind (_send cmd) (fun _ => bind _response k) c
    = k (RStr (Str.rstrip (join body))) c1
    /\ f c1 = Some rest
    /\ store c1 = store c
    /\ s c1 = Some {| sent := written sk cmd; write_error := write_error sk |}.
Proof.
  intros Hs Hf Hh Hint Hbody.
  destruct (_send_some cmd c sk Hs) as (b & c0 & E & Hf0 & Hst0 & _ & _ & Hs0).
  rewrite (bind_Ret _ _ _ _ _ E). rewrite <- Hf0 in Hf.
  destruct (_response_data c0 h text footer datalen body rest Hf Hh Hint Hbody)
    as (Hr & Hf1 & _ & Hs1 & Hst1 & _).
  unfold bind. destruct (_response c0) as [r1 c1]. simpl in *. subst r1.
  exists c1. split; [reflexivity|]. repeat split; congruence.
Qed.

(** X7.  A failure is logged with its cause and reported as [False]: for
    the header [D], [set_sources] logs the key-not-found warning with the
    command it has just issued (stripped), for the header [F] the
    query-failed warning with the rest of the header line, as it stands;
    a write error is logged before either. *)
Theorem set_sources_failure_logged (sources : string) (c : IRRClient) (sk : socket)
    (h : string) (rest : list string) (code : ascii) (text : string) :
  s c = Some sk ->
  f c = Some (h :: rest) ->
  Str.rstrip h = String code text ->
  code = "D"%char \/ code = "F"%char ->
  fst (set_sources sources c) = Ret None
  /\ f (snd (set_sources sources c)) = Some rest
  /\ log (snd (set_sources sources c))
     = (log c ++ write_log sk
          ++ [if Ascii.eqb code "D"
              then Warning_key_not_found
                     (Some (Str.rstrip ("!s-" +:+ sources +:+ LF)))
              else Warning_query_failed text])%list.
Proof.
  intros Hs Hf Hh Hcode. unfold set_sources.
  destruct (query_no_data ("!s-" +:+ sources +:+ LF)
              (fun results => if negb (truthy results) then ret None
                              else match results with
                                   | RStr body => ret (Some (Str.split body))
                                   | RBool _ => raise AttributeError
                                   end)
              c sk h rest code text Hs Hf Hh)
    as (c1 & E & Hf1 & _ & Hlog & _);
    [destruct Hcode as [-> | ->]; discriminate|].
  rewrite E.
  destruct Hcode as [-> | ->]; cbn; (split; [reflexivity|]);
    (split; [exact Hf1|]); exact Hlog.
Qed.

Lemma set_sources_failure_logged_witness :
  let c := session true [line "F bad syntax"; line "D"] in
  let c' := snd (set_sources "RADB,RIPE" c) in
  fst (set_sources "RADB,RIPE" c) = Ret None
  /\ log c' = (log c ++ [Warning_query_failed " bad syntax"])%list
  /\ log (snd (set_sources "RADB,RIPE " c'))
     = (log c' ++ [Warning_key_not_found (Some "!s-RADB,RIPE")])%list.
Proof.
  intros c c'.
  destruct (set_sources_failure_logged "RADB,RIPE" c
              {| sent := [line "!!"; line "!nirrpt-ng"]; write_error := None |}
              (line "F bad syntax") [line "D"] "F" " bad syntax"
              eq_refl eq_refl eq_refl (or_intror eq_refl))
    as (H1 & H2 & H3).
  split; [exact H1|]. split; [exact H3|].
  destruct (set_sources_failure_logged "RADB,RIPE " c'
              {| sent := [line "!!"; line "!nirrpt-ng"; line "!s-RADB,RIPE"];
                 write_error := None |}
              (line "D") [] "D" ""
              ltac:(vm_compute; reflexivity) H2 eq_refl (or_introl eq_refl))
    as (_ & _ & H6).
  exact H6.
Defined.

(** X8.  [get_members_by_set] writes one command, [!iNAME,1] when
    [recursive] is set and [!iNAME] when it is not.  On a data response
    with a non-empty body it returns the tokens of the body, each of them
    once; on an empty body it returns [False]. *)
Theorem get_members_by_set_tokens (name : string) (recursive : bool)
    (c : IRRClient) (sk : socket) (h text footer : string) (datalen : Z)
    (body rest : list string) :
  s c = Some sk ->
  f c = Some (h :: body ++ footer :: rest) ->
  Str.rstrip h = String "A" text ->
  Str.int text = Some datalen ->
  is_body datalen body ->
  let cmd := "!i" +:+ name +:+ (if recursive then "," +:+ "1" else "") +:+ LF in
  let r := get_members_by_set name recursive c in
  s (snd r) = Some {| sent := written sk cmd; write_error := write_error sk |}
  /\ f (snd r) = Some rest
  /\ (Str.rstrip (join body) = EmptyString -> fst r = Ret None)
  /\ (Str.rstrip (join body) <> EmptyString ->
      exists members,
        fst r = Ret (Some members)
        /\ NoDup members
        /\ forall t, t ∈ members <-> t ∈ Str.split (Str.rstrip (join body))).
Proof.
  intros Hs Hf Hh Hint Hbody cmd r. subst r cmd.
  set (k := fun response =>
              if negb (truthy response) then ret None
              else match response with
                   | RStr body0 => ret (Some (remove_dups (Str.split body0)))
                   | RBool _ => raise AttributeError
                   end).
  set (c0 := with_log (log c ++ [Debug_fetching_members name recursive]) c).
  assert (Hs0 : s c0 = Some sk) by exact Hs.
  assert (Hf0 : f c0 = Some (h :: body ++ footer :: rest)) by exact Hf.
  assert (H : exists c1,
             get_members_by_set name recursive c
             = k (RStr (Str.rstrip (join body))) c1
             /\ f c1 = Some rest
             /\ s c1 = Some {| sent := written sk
                                         ("!i" +:+ name
                                          +:+ (if recursive then "," +:+ "1" else "")
                                          +:+ LF);
                               write_error := write_error sk |}).
  { destruct recursive.
    - destruct (query_data ("!i" +:+ name +:+ ",1" +:+ LF) k c0 sk h text footer
                  datalen body rest Hs0 Hf0 Hh Hint Hbody)
        as (c1 & E & Hf1 & _ & Hs1).
      exists c1. split; [exact E|]. split; assumption.
    - destruct (query_data ("!i" +:+ name +:+ LF) k c0 sk h text footer
                  datalen body rest Hs0 Hf0 Hh Hint Hbody)
        as (c1 & E & Hf1 & _ & Hs1).
      exists c1. split; [exact E|]. split; assumption. }
  destruct H as (c1 & E & Hf1 & Hs1). rewrite E. unfold k.
  destruct (Str.rstrip (join body)) as [|a b] eqn:Hb; cbn.
  - split; [exact Hs1|]. split; [exact Hf1|]. split; [reflexivity|].
    intros Hne. contradiction.
  - split; [exact Hs1|]. split; [exact Hf1|]. split; [discriminate|]. intros _.
    eexists. split; [reflexivity|]. split; [apply NoDup_remove_dups|].
    intros t. apply elem_of_remove_dups.
Qed.

Lemma get_members_by_set_tokens_witness :
  let c := session true [line "A24"; line "AS65000 AS65001 AS65000"; line "C"] in
  (exists members,
     fst (get_members_by_set "AS-EXAMPLE" true c) = Ret (Some members)
     /\ NoDup members
     /\ forall t, t ∈ members <-> t ∈ ["AS65000"; "AS65001"; "AS65000"])
  /\ commands (snd (get_members_by_set "AS-EXAMPLE" true c))
     = [line "!!"; line "!nirrpt-ng"; line "!iAS-EXAMPLE,1"]
  /\ commands (snd (get_members_by_set "AS-EXAMPLE" false c))
     = [line "!!"; line "!nirrpt-ng"; line "!iAS-EXAMPLE"].
Proof.
  intros c.
  assert (Hb : is_body 24 [line "AS65000 AS65001 AS65000"])
    by (right; exists [], (line "AS65000 AS65001 AS65000");
        repeat split; vm_compute; congruence).
  pose (sk := {| sent := [line "!!"; line "!nirrpt-ng"]; write_error := None |}).
  destruct (get_members_by_set_tokens "AS-EXAMPLE" true c sk (line "A24") "24"
              (line "C") 24 [line "AS65000 AS65001 AS65000"] []
              eq_refl eq_refl eq_refl eq_refl Hb) as (Hs1 & _ & _ & Hm).
  destruct (get_members_by_set_tokens "AS-EXAMPLE" false c sk (line "A24") "24"
              (line "C") 24 [line "AS65000 AS65001 AS65000"] []
              eq_refl eq_refl eq_refl eq_refl Hb) as (Hs2 & _).
  split.
  - destruct Hm as (members & Hr & Hnd & Hmem); [vm_compute; discriminate|].
    exists members. split; [exact Hr|]. split; [exact Hnd|].
    intros t. rewrite Hmem.
    replace (Str.split (Str.rstrip (join [line "AS65000 AS65001 AS65000"])))
      with ["AS65000"; "AS65001"; "AS65000"] by (vm_compute; reflexivity).
    reflexivity.
  - unfold commands. split; [rewrite Hs1 | rewrite Hs2]; vm_compute; reflexivity.
Defined.

(** ** RouteSet without aggregation *)

Lemma PySet_add_elem (l : list IP) (a b : IP) :
  b ∈ PySet.add l a <-> b ∈ l \/ b = a.
Proof.
  unfold PySet.add. destruct (bool_decide (a ∈ l)) eqn:E.
  - apply bool_decide_eq_true in E. split; [auto|]. intros [H | ->]; assumption.
  - rewrite elem_of_app, list_elem_of_singleton. reflexivity.
Qed.

Lemma PySet_add_NoDup (l : list IP) (a : IP) : NoDup l -> NoDup (PySet.add l a).
Proof.
  intros H. unfold PySet.add. destruct (bool_decide (a ∈ l)) eqn:E; [exact H|].
  apply bool_decide_eq_false in E. apply NoDup_app. split; [exact H|].
  split; [|apply NoDup_singleton].
  intros x Hx Hx'. apply list_elem_of_singleton in Hx'. subst x. contradiction.
Qed.

Lemma PySet_add_length (l : list IP) (a : IP) :
  (length (PySet.add l a) <= S (length l))%nat.
Proof.
  unfold PySet.add. destruct (bool_decide (a ∈ l)); [lia|].
  rewrite length_app. simpl. lia.
Qed.

Lemma PySet_discard_elem (l : list IP) (a b : IP) :
  b ∈ PySet.discard l a <-> b <> a /\ b ∈ l.
Proof. unfold PySet.discard. rewrite list_elem_of_filter. reflexivity. Qed.

Lemma PySet_discard_absent (l : list IP) (a : IP) :
  a ∉ l -> PySet.discard l a = l.
Proof.
  unfold PySet.discard. induction l as [|b l IH]; intros H; [reflexivity|].
  apply not_elem_of_cons in H as [Hne Hl].
  rewrite filter_cons_True by congruence. rewrite IH by exact Hl. reflexivity.
Qed.

Lemma PySet_discard_added (l : list IP) (a : IP) :
  a ∉ l -> PySet.discard (PySet.add l a) a = l.
Proof.
  intros H. unfold PySet.add. rewrite bool_decide_eq_false_2 by exact H.
  unfold PySet.discard. rewrite filter_app.
  fold (PySet.discard l a). rewrite PySet_discard_absent by exact H.
  rewrite filter_cons_False by (intros Hne; apply Hne; reflexivity).
  rewrite filter_nil. apply app_nil_r.
Qed.

Section Plain.
Context {L : IPy}.

Lemma contains_plain (rs : RouteSet) (a : IP) :
  aggregated rs = false ->
  RouteSet_contains rs (ItemIP a)
  = Ret (bool_decide (a ∈ ip4 rs) || bool_decide (a ∈ ip6 rs)).
Proof.
  intros H. unfold RouteSet_contains, bucket_contains. rewrite H. cbn.
  destruct (bool_decide (a ∈ ip4 rs)); reflexivity.
Qed.

Lemma contains_plain_iter (rs : RouteSet) (a : IP) :
  aggregated rs = false ->
  RouteSet_contains rs (ItemIP a) = Ret true <-> a ∈ RouteSet_iter rs.
Proof.
  intros H. rewrite (contains_plain rs a H). unfold RouteSet_iter.
  rewrite elem_of_app. split.
  - intros E. inversion E as [E']. apply orb_true_iff in E'.
    destruct E' as [E' | E']; apply bool_decide_eq_true in E'; auto.
  - intros [E | E]; rewrite (bool_decide_eq_true_2 _ E);
      [reflexivity | rewrite orb_true_r; reflexivity].
Qed.

(** [add] on a set that does not aggregate, by the family of the prefix. *)
Lemma add_plain (rs : RouteSet) (x : item) (a : IP) :
  aggregated rs = false -> IP_make_net x = Some a ->
  RouteSet_add rs x
  = Ret (if version a =? 4
         then {| aggregated := false; ip4 := PySet.add (ip4 rs) a; ip6 := ip6 rs |}
         else if version a =? 6
              then {| aggregated := false; ip4 := ip4 rs;
                      ip6 := PySet.add (ip6 rs) a |}
              else rs).
Proof.
  intros H Hx. unfold RouteSet_add, bucket_add. rewrite Hx, H.
  destruct (version a =? 4); [reflexivity|]. destruct (version a =? 6); reflexivity.
Qed.

Lemma discard_plain (rs : RouteSet) (x : item) (a : IP) :
  aggregated rs = false -> IP_make_net x = Some a ->
  RouteSet_discard rs x
  = Ret {| aggregated := false; ip4 := PySet.discard (ip4 rs) a;
           ip6 := PySet.discard (ip6 rs) a |}.
Proof.
  intros H Hx. unfold RouteSet_discard, bucket_discard. rewrite Hx, H. reflexivity.
Qed.

Lemma plain_add (rs rs' : RouteSet) (x : item) :
  plain rs -> RouteSet_add rs x = Ret rs' -> plain rs'.
Proof.
  intros (Hagg & N4 & N6 & V4 & V6) H.
  destruct (IP_make_net x) as [a|] eqn:Hx;
    [|unfold RouteSet_add in H; rewrite Hx in H; discriminate].
  rewrite (add_plain rs x a Hagg Hx) in H.
  destruct (version a =? 4) eqn:E4; [|destruct (version a =? 6) eqn:E6];
    inversion H; subst rs'; unfold plain; cbn.
  - apply Z.eqb_eq in E4. repeat split; auto using PySet_add_NoDup.
    apply Forall_forall. intros b Hb. apply PySet_add_elem in Hb as [Hb | ->];
      [exact (proj1 (Forall_forall _ _) V4 b Hb) | exact E4].
  - apply Z.eqb_eq in E6. repeat split; auto using PySet_add_NoDup.
    apply Forall_forall. intros b Hb. apply PySet_add_elem in Hb as [Hb | ->];
      [exact (proj1 (Forall_forall _ _) V6 b Hb) | exact E6].
  - repeat split; assumption.
Qed.

Lemma plain_discard (rs rs' : RouteSet) (x : item) :
  plain rs -> RouteSet_discard rs x = Ret rs' -> plain rs'.
Proof.
  intros (Hagg & N4 & N6 & V4 & V6) H.
  destruct (IP_make_net x) as [a|] eqn:Hx;
    [|unfold RouteSet_discard in H; rewrite Hx in H; discriminate].
  rewrite (discard_plain rs x a Hagg Hx) in H. inversion H; subst rs'.
  unfold plain, PySet.discard; cbn.
  repeat split; try (apply NoDup_filter; assumption).
  - apply Forall_forall. intros b Hb. apply list_elem_of_filter in Hb as [_ Hb].
    exact (proj1 (Forall_forall _ _) V4 b Hb).
  - apply Forall_forall. intros b Hb. apply list_elem_of_filter in Hb as [_ Hb].
    exact (proj1 (Forall_forall _ _) V6 b Hb).
Qed.

Lemma plain_add_all (items : list item) :
  forall rs rs', plain rs -> RouteSet_add_all rs items = Ret rs' -> plain rs'.
Proof.
  induction items as [|x xs IH]; intros rs rs' Hp H; cbn in H.
  - inversion H; subst. exact Hp.
  - destruct (RouteSet_add rs x) as [rs1| |] eqn:E; try discriminate.
    cbn in H. exact (IH rs1 rs' (plain_add rs rs1 x Hp E) H).
Qed.

(** X9.  Without aggregation the buckets stay in order: [add] and
    [discard] keep every prefix at most once in its bucket, IPv4 prefixes
    in [ip4] and IPv6 prefixes in [ip6]; the set that
    [RouteSet(routes, aggregate=False)] builds is in order. *)
Theorem plain_invariant (rs rs' : RouteSet) (x : item) (routes : list item) :
  (plain rs -> RouteSet_add rs x = Ret rs' -> plain rs')
  /\ (plain rs -> RouteSet_discard rs x = Ret rs' -> plain rs')
  /\ (RouteSet_init routes false = Ret rs' -> plain rs').
Proof.
  split; [apply plain_add|]. split; [apply plain_discard|].
  unfold RouteSet_init. apply plain_add_all.
  unfold plain; cbn. repeat split; constructor.
Qed.

Lemma add_all_members (items : list item) :
  forall rs rs', aggregated rs = false ->
    RouteSet_add_all rs items = Ret rs' ->
    aggregated rs' = false
    /\ (forall a, a ∈ RouteSet_iter rs' <->
          a ∈ RouteSet_iter rs
          \/ exists x, In x items /\ IP_make_net x = Some a
                       /\ (version a = 4 \/ version a = 6))
    /\ (RouteSet_len rs' <= RouteSet_len rs + length items)%nat.
Proof.
  induction items as [|x xs IH]; intros rs rs' Hagg H; cbn in H.
  - inversion H; subst. split; [exact Hagg|]. split; [|cbn; lia].
    intros a. split; [auto|]. intros [Ha | (x & [] & _)]. exact Ha.
  - destruct (RouteSet_add rs x) as [rs1| |] eqn:E; try discriminate. cbn in H.
    destruct (IP_make_net x) as [b|] eqn:Hx;
      [|unfold RouteSet_add in E; rewrite Hx in E; discriminate].
    rewrite (add_plain rs x b Hagg Hx) in E.
    assert (Hagg1 : aggregated rs1 = false)
      by (destruct (version b =? 4); [|destruct (version b =? 6)];
          inversion E; subst; auto).
    destruct (IH rs1 rs' Hagg1 H) as (Hagg' & Hmem & Hlen).
    assert (Hstep : (forall a, a ∈ RouteSet_iter rs1 <->
                       a ∈ RouteSet_iter rs
                       \/ (a = b /\ (version b = 4 \/ version b = 6)))
                    /\ (RouteSet_len rs1 <= S (RouteSet_len rs))%nat).
    { unfold RouteSet_iter, RouteSet_len.
      destruct (version b =? 4) eqn:E4; [|destruct (version b =? 6) eqn:E6];
        inversion E; subst rs1; cbn.
      - apply Z.eqb_eq in E4. split.
        + intros a. rewrite !elem_of_app, PySet_add_elem. intuition.
        + pose proof (PySet_add_length (ip4 rs) b). lia.
      - apply Z.eqb_eq in E6. split.
        + intros a. rewrite !elem_of_app, PySet_add_elem. intuition.
        + pose proof (PySet_add_length (ip6 rs) b). lia.
      - apply Z.eqb_neq in E4, E6. split; [|lia].
        intros a. rewrite !elem_of_app. intuition. }
    destruct Hstep as [Hmem1 Hlen1].
    split; [exact Hagg'|]. split; [|cbn; lia].
    intros a. rewrite Hmem, Hmem1. split.
    + intros [[Ha | (-> & Hv)] | (y & Hy & Hya & Hv)].
      * left. exact Ha.
      * right. exists x. split; [left; reflexivity | auto].
      * right. exists y. split; [right; exact Hy | auto].
    + intros [Ha | (y & [-> | Hy] & Hya & Hv)].
      * left. left. exact Ha.
      * left. right. rewrite Hx in Hya. inversion Hya. auto.
      * right. exists y. auto.
Qed.

(** X10.  What [RouteSet(routes, aggregate=False)] holds: an [IP] object
    is a member exactly when it is the network of one of the routes and of
    family 4 or 6 (routes of another family are dropped without notice);
    its length is at most the number of routes. *)
Theorem init_members (routes : list item) (rs : RouteSet) (a : IP) :
  RouteSet_init routes false = Ret rs ->
  (RouteSet_contains rs (ItemIP a) = Ret true
   <-> exists x, In x routes /\ IP_make_net x = Some a
                 /\ (version a = 4 \/ version a = 6))
  /\ (RouteSet_len rs <= length routes)%nat.
Proof.
  intros H. unfold RouteSet_init in H.
  destruct (add_all_members routes
              {| aggregated := false; ip4 := []; ip6 := [] |} rs eq_refl H)
    as (Hagg & Hmem & Hlen).
  split; [|exact Hlen].
  rewrite (contains_plain_iter rs a Hagg), Hmem. cbn. split.
  - intros [Ha | Hx]; [|exact Hx]. apply elem_of_nil in Ha. contradiction.
  - auto.
Qed.

(** X11.  [discard] without aggregation: the network of the item is no
    member afterwards, every other [IP] object is a member as before, and
    discarding what is not a member leaves the set as it is. *)
Theorem discard_removes (rs : RouteSet) (x : item) (a : IP) :
  aggregated rs = false ->
  IP_make_net x = Some a ->
  exists rs',
    RouteSet_discard rs x = Ret rs'
    /\ RouteSet_contains rs' (ItemIP a) = Ret false
    /\ (forall b, b <> a ->
          RouteSet_contains rs' (ItemIP b) = RouteSet_contains rs (ItemIP b))
    /\ (RouteSet_contains rs (ItemIP a) = Ret false -> rs' = rs).
Proof.
  intros Hagg Hx.
  set (rs' := {| aggregated := false; ip4 := PySet.discard (ip4 rs) a;
                 ip6 := PySet.discard (ip6 rs) a |}).
  assert (Hagg' : aggregated rs' = false) by reflexivity.
  exists rs'. split; [apply (discard_plain rs x a Hagg Hx)|].
  split; [|split].
  - rewrite (contains_plain rs' a Hagg'). cbn [rs' ip4 ip6].
    rewrite !bool_decide_eq_false_2; [reflexivity| |];
      rewrite PySet_discard_elem; intros [Hne _]; apply Hne; reflexivity.
  - intros b Hb. rewrite (contains_plain rs' b Hagg'), (contains_plain rs b Hagg).
    cbn [rs' ip4 ip6]. f_equal. f_equal; apply bool_decide_ext;
      rewrite PySet_discard_elem; intuition.
  - intros H. rewrite (contains_plain rs a Hagg) in H. inversion H as [H'].
    apply orb_false_iff in H' as [H4 H6].
    apply bool_decide_eq_false in H4, H6. unfold rs'.
    rewrite !PySet_discard_absent by assumption.
    destruct rs; cbn in *; subst; reflexivity.
Qed.

(** X12.  Adding a prefix that is not yet a member and discarding it
    again gives the set back, without aggregation. *)
Theorem add_discard_restores (rs rs1 : RouteSet) (x : item) (a : IP) :
  aggregated rs = false ->
  IP_make_net x = Some a ->
  RouteSet_contains rs (ItemIP a) = Ret false ->
  RouteSet_add rs x = Ret rs1 ->
  RouteSet_discard rs1 x = Ret rs.
Proof.
  intros Hagg Hx Hnot Hadd.
  rewrite (contains_plain rs a Hagg) in Hnot. inversion Hnot as [H'].
  apply orb_false_iff in H' as [H4 H6]. apply bool_decide_eq_false in H4, H6.
  rewrite (add_plain rs x a Hagg Hx) in Hadd.
  destruct (version a =? 4); [|destruct (version a =? 6)];
    inversion Hadd; subst rs1;
    rewrite (discard_plain _ x a) by (reflexivity || assumption);
    cbn [ip4 ip6];
    rewrite ?PySet_discard_added, ?PySet_discard_absent by assumption;
    destruct rs; cbn in *; subst; reflexivity.
Qed.

(** X13.  [RouteSet(routes)] succeeds exactly when every route is read by
    the parser, in either mode; a route that is not makes it raise
    [ValueError]. *)
Theorem init_raises_on_malformed (routes : list item) (aggregate : bool) :
  ((forall x, In x routes -> IP_make_net x <> None) ->
     exists rs, RouteSet_init routes aggregate = Ret rs
                /\ aggregated rs = aggregate)
  /\ ((exists x, In x routes /\ IP_make_net x = None) ->
     RouteSet_init routes aggregate = Raise ValueError).
Proof.
  unfold RouteSet_init.
  assert (G : forall items rs,
             ((forall x, In x items -> IP_make_net x <> None) ->
                exists rs', RouteSet_add_all rs items = Ret rs'
                            /\ aggregated rs' = aggregated rs)
             /\ ((exists x, In x items /\ IP_make_net x = None) ->
                RouteSet_add_all rs items = Raise ValueError)).
  { induction items as [|x xs IH]; intros rs; cbn [RouteSet_add_all].
    - split; [intros _; exists rs; auto | intros (x & [] & _)].
    - unfold RouteSet_add at 1 2. destruct (IP_make_net x) as [a|] eqn:Hx.
      + assert (E : exists rs1,
                   (if version a =? 4
                    then Ret {| aggregated := aggregated rs;
                                ip4 := bucket_add (aggregated rs) (ip4 rs) a;
                                ip6 := ip6 rs |}
                    else if version a =? 6
                         then Ret {| aggregated := aggregated rs; ip4 := ip4 rs;
                                     ip6 := bucket_add (aggregated rs) (ip6 rs) a |}
                         else Ret rs) = Ret rs1
                   /\ aggregated rs1 = aggregated rs)
          by (destruct (version a =? 4); [|destruct (version a =? 6)];
              eexists; split; reflexivity).
        destruct E as (rs1 & -> & Hagg). cbn [result_bind].
        destruct (IH rs1) as [IH1 IH2]. split.
        * intros Hall. destruct IH1 as (rs' & E' & Hagg').
          { intros y Hy. apply Hall. right. exact Hy. }
          exists rs'. split; [exact E' | congruence].
        * intros (y & [-> | Hy] & Hnone); [congruence|].
          apply IH2. exists y. auto.
      + cbn. split; [|reflexivity].
        intros Hall. exfalso. apply (Hall x); [left; reflexivity | exact Hx]. }
  exact (G routes _).
Qed.

End Plain.

Lemma plain_invariant_witness :
  plain {| aggregated := false;
           ip4 := [ {| version := 4; ip := 167772160; prefixlen := 24 |} ];
           ip6 := [] |}.
Proof.
  apply (proj2 (proj2 (plain_invariant (RouteSet_new false) _ (ItemStr "")
                         [ItemStr "10.0.0.0/24"; ItemStr "10.0.0.77/24"]))).
  reflexivity.
Defined.

Lemma init_members_witness :
  RouteSet_contains
    {| aggregated := false;
       ip4 := [ {| version := 4; ip := 167772160; prefixlen := 24 |} ];
       ip6 := [] |}
    (ItemIP {| version := 4; ip := 167772160; prefixlen := 24 |}) = Ret true.
Proof.
  apply (proj1 (init_members (L := DottedQuad.lib)
                  [ItemStr "10.0.0.0/24"; ItemStr "10.0.0.77/24"]
                  {| aggregated := false;
                     ip4 := [ {| version := 4; ip := 167772160; prefixlen := 24 |} ];
                     ip6 := [] |}
                  {| version := 4; ip := 167772160; prefixlen := 24 |} eq_refl)).
  exists (ItemStr "10.0.0.77/24"). split; [right; left; reflexivity|].
  split; [reflexivity | left; reflexivity].
Defined.

Lemma discard_removes_witness :
  exists rs',
    RouteSet_discard
      {| aggregated := false; ip4 := [net_192_0_2_0]; ip6 := [] |}
      (ItemStr "192.0.2.99/24") = Ret rs'
    /\ RouteSet_contains rs' (ItemIP net_192_0_2_0) = Ret false.
Proof.
  destruct (discard_removes (L := DottedQuad.lib)
              {| aggregated := false; ip4 := [net_192_0_2_0]; ip6 := [] |}
              (ItemStr "192.0.2.99/24") net_192_0_2_0 eq_refl eq_refl)
    as (rs' & H1 & H2 & _).
  exists rs'. split; assumption.
Defined.

Lemma add_discard_restores_witness :
  RouteSet_discard
    {| aggregated := false; ip4 := [net_192_0_2_0]; ip6 := [] |}
    (ItemStr "192.0.2.0/24")
  = Ret (RouteSet_new false).
Proof.
  apply (add_discard_restores (L := DottedQuad.lib) (RouteSet_new false) _
           (ItemStr "192.0.2.0/24") net_192_0_2_0); reflexivity.
Defined.

Lemma init_raises_on_malformed_witness :
  RouteSet_init [ItemStr "10.0.0.0/24"; ItemStr "10.0.0.0/33"] true = Raise ValueError
  /\ exists rs, RouteSet_init [ItemStr "10.0.0.0/24"; ItemStr "10.0.1.0/24"] true = Ret rs
                /\ aggregated rs = true.
Proof.
  split.
  - apply (proj2 (init_raises_on_malformed _ true)).
    exists (ItemStr "10.0.0.0/33"). split; [right; left; reflexivity | reflexivity].
  - apply (proj1 (init_raises_on_malformed _ true)).
    intros x [<- | [<- | []]]; discriminate.
Defined.

(** ** What the methods do to the store *)

(** A step that keeps the store, followed by more steps. *)
Lemma bind_store {A B} (m : M A) (k : A -> M B) (c : IRRClient)
    (Q : result B -> IRRClient -> Prop) :
  preserves store m ->
  (forall e c', store c' = store c -> Q (Raise e) c') ->
  (forall c', store c' = store c -> Q Hang c') ->
  (forall a c', store c' = store c -> Q (fst (k a c')) (snd (k a c'))) ->
  Q (fst (bind m k c)) (snd (bind m k c)).
Proof.
  intros Hm He Hh Hk. specialize (Hm c). unfold bind.
  destruct (m c) as [[a|e|] c']; simpl in *; auto.
Qed.

Lemma store_eq (c c' : IRRClient) :
  store c' = store c ->
  settings c' = settings c /\ _cache c' = _cache c /\ caching c' = caching c.
Proof.
  intros H. split; [exact (f_equal fst H)|]. split; [exact (f_equal snd H)|].
  exact (f_equal (fun p => fst (fst (fst p))) H).
Qed.

Lemma origin_effect_store (n : Z) (c c' c1 : IRRClient)
    (r : result (option RouteSet)) :
  store c' = store c -> origin_effect n c' r c1 -> origin_effect n c r c1.
Proof.
  intros Hst [Hset Hr]. destruct (store_eq c c' Hst) as (Hs & Hc & Hcach).
  unfold origin_effect. rewrite <- Hs, <- Hc, <- Hcach. split; assumption.
Qed.

Lemma origin_effect_failed (n : Z) (c c' : IRRClient) :
  store c' = store c ->
  (forall e, origin_effect n c (Raise e) c') /\ origin_effect n c Hang c'.
Proof.
  intros Hst. destruct (store_eq c c' Hst) as (Hs & Hc & _).
  unfold origin_effect. auto.
Qed.

(** The effect of [get_routes_by_origin] on the store, for every outcome. *)
Lemma get_routes_by_origin_effect `{L : IPy} (origin : pyval) (n : Z) (c : IRRClient) :
  int_of origin = Some n ->
  origin_effect n c (fst (get_routes_by_origin origin c))
    (snd (get_routes_by_origin origin c)).
Proof.
  intros Hn.
  assert (E : get_routes_by_origin origin c
              = (if _is_cached c (KInt n) then ret (_get_cache c (KInt n))
                 else
                   bind (_send ("!gAS" +:+ Str.of_int n +:+ LF)) (fun _ =>
                   bind _response (fun response =>
                   bind (if truthy response then
                           match response with
                           | RStr body =>
                               lift (RouteSet_add_all (RouteSet_new (aggregate c))
                                       (map ItemStr (Str.split body)))
                           | RBool _ => raise AttributeError
                           end
                         else ret (RouteSet_new (aggregate c))) (fun routes =>
                   bind (if ipv6 c then
                           bind (_send ("!6AS" +:+ Str.of_int n +:+ LF)) (fun _ =>
                           bind _response (fun response =>
                           if truthy response then
                             match response with
                             | RStr body =>
                                 lift (RouteSet_add_all routes
                                         (map ItemStr (Str.split body)))
                             | RBool _ => raise AttributeError
                             end
                           else ret routes))
                         else ret routes) (fun routes =>
                   bind (_set_cache (KInt n) routes) (fun _ =>
                   ret (Some routes))))))) c)
    by (unfold get_routes_by_origin; rewrite Hn; reflexivity).
  rewrite E. clear E.
  destruct (_is_cached c (KInt n)) eqn:Hhit.
  - unfold _is_cached in Hhit. apply andb_true_iff in Hhit as [Hc Hk].
    apply bool_decide_eq_true in Hk. destruct Hk as [rs Hk].
    unfold _get_cache, ret, origin_effect. rewrite Hc, Hk. cbn.
    split; [reflexivity|]. exists rs. split; [reflexivity|].
    symmetry. apply insert_id. exact Hk.
  - apply (bind_store _ _ c (origin_effect n c)); [apply preserves_send | | |];
      try (intros; apply (origin_effect_failed n c); assumption).
    intros _ c1 H1.
    apply (bind_store _ _ c1 (origin_effect n c)); [apply preserves_response | | |];
      try (intros; apply (origin_effect_failed n c); congruence).
    intros response c2 H2.
    apply (bind_store _ _ c2 (origin_effect n c)); [repeat preserves_step | | |];
      try (intros; apply (origin_effect_failed n c); congruence).
    intros routes1 c3 H3.
    apply (bind_store _ _ c3 (origin_effect n c));
      [destruct (ipv6 c); [|auto with frame];
       apply preserves_bind; [apply preserves_send|]; intros _;
       apply preserves_bind; [apply preserves_response|]; intros resp;
       repeat preserves_step | | |];
      try (intros; apply (origin_effect_failed n c); congruence).
    intros routes2 c4 H4.
    apply (origin_effect_store n c c4); [congruence|].
    unfold bind, _set_cache, ret, origin_effect.
    destruct (caching c4); cbn; (split; [reflexivity|]);
      exists routes2; split; reflexivity.
Qed.

Lemma preserves_multi : preserves store _multi.
Proof. unfold _multi. repeat preserves_step. Qed.

Lemma preserves_identify : preserves store _identify.
Proof. unfold _identify. repeat preserves_step. Qed.

Lemma preserves_connect (net : create_connection) : preserves store (connect net).
Proof.
  unfold connect. apply preserves_bind; [auto with frame|]. intros c0.
  apply preserves_bind; [auto with frame|]. intros _.
  destruct net as [we stream | msg].
  - apply preserves_bind; [intros c; reflexivity|]. intros _.
    apply preserves_bind; [intros c; reflexivity|]. intros _.
    apply preserves_bind; [apply preserves_multi|]. intros _.
    apply preserves_bind; [apply preserves_identify|]. intros _.
    auto with frame.
  - apply preserves_bind; [auto with frame|]. intros c1.
    destruct (s c1); [|auto with frame].
    apply preserves_bind; [intros c; reflexivity|]. intros _.
    repeat preserves_step.
Qed.

Lemma preserves_set_sources (sources : string) : preserves store (set_sources sources).
Proof. unfold set_sources. repeat preserves_step. Qed.

Lemma preserves_get_sources : preserves store get_sources.
Proof. unfold get_sources. repeat preserves_step. Qed.

Lemma preserves_get_members_by_set (name : string) (recursive : bool) :
  preserves store (get_members_by_set name recursive).
Proof. unfold get_members_by_set. repeat preserves_step. Qed.

(** Properties of the settings and the cache that survive the one write
    there is: a [RouteSet] stored under an integer key that was absent,
    with caching on. *)
Section Invariant.
Context {L : IPy}.
Variable J : bool * bool * bool -> gmap key RouteSet -> Prop.
Hypothesis J_insert :
  forall sigma m n routes,
    J sigma m -> fst (fst sigma) = true -> m !! KInt n = None ->
    J sigma (<[KInt n := routes]> m).

Lemma keeps_preserved {A} (m : M A) :
  preserves store m -> keeps (fun c => J (settings c) (_cache c)) m.
Proof.
  intros H c Ic. destruct (store_eq c _ (H c)) as (Hs & Hc & _).
  rewrite Hs, Hc. exact Ic.
Qed.

Lemma keeps_bind {A B} (I : IRRClient -> Prop) (m : M A) (k : A -> M B) :
  keeps I m -> (forall a, keeps I (k a)) -> keeps I (bind m k).
Proof.
  intros Hm Hk c Ic. unfold bind. specialize (Hm c Ic).
  destruct (m c) as [[a|e|] c']; simpl in *; try exact Hm.
  apply (Hk a c'). exact Hm.
Qed.

Lemma keeps_get_routes_by_origin (origin : pyval) :
  keeps (fun c => J (settings c) (_cache c)) (get_routes_by_origin origin).
Proof.
  intros c Ic. destruct (int_of origin) as [n|] eqn:Hn;
    [|unfold get_routes_by_origin; rewrite Hn; exact Ic].
  destruct (caching c) eqn:Hc; [destruct (_cache c !! KInt n) as [rs|] eqn:Hk|].
  - rewrite (get_routes_by_origin_hit origin n rs c Hn Hc Hk). exact Ic.
  - destruct (get_routes_by_origin_effect origin n c Hn) as [Hs Hr].
    rewrite Hs. destruct (fst (get_routes_by_origin origin c)) as [v|e|].
    + destruct Hr as (routes & _ & ->). rewrite Hc.
      apply J_insert; [exact Ic | | exact Hk].
      unfold settings. exact Hc.
    + rewrite Hr. exact Ic.
    + rewrite Hr. exact Ic.
  - destruct (get_routes_by_origin_effect origin n c Hn) as [Hs Hr].
    rewrite Hs. destruct (fst (get_routes_by_origin origin c)) as [v|e|].
    + destruct Hr as (routes & _ & ->). rewrite Hc. exact Ic.
    + rewrite Hr. exact Ic.
    + rewrite Hr. exact Ic.
Qed.

Lemma keeps_resolve_autnums (autnums : list Z) :
  forall routes,
    keeps (fun c => J (settings c) (_cache c)) (resolve_autnums autnums routes).
Proof.
  induction autnums as [|asn rest IH]; intros routes; cbn [resolve_autnums].
  - apply keeps_preserved. auto with frame.
  - apply keeps_bind; [apply keeps_get_routes_by_origin|].
    intros [rs|]; [|apply keeps_preserved; auto with frame].
    apply keeps_bind; [apply keeps_preserved; auto with frame|].
    intros routes'. apply IH.
Qed.

Lemma keeps_data_of_response (name : string) (routes : RouteSet) (response : response) :
  keeps (fun c => J (settings c) (_cache c)) (data_of_response name routes response).
Proof.
  unfold data_of_response.
  destruct (negb (truthy response)); [apply keeps_preserved; auto with frame|].
  destruct response as [b|body]; [apply keeps_preserved; auto with frame|].
  destruct (autnums_of (Str.split (Str.upper body))) as [autnums|] eqn:E;
    [|apply keeps_preserved; auto with frame].
  rewrite (classify_autnums _ _ E).
  destruct autnums as [|asn rest];
    [apply keeps_preserved; repeat preserves_step|].
  apply keeps_bind; [apply keeps_preserved; auto with frame|]. intros _.
  apply keeps_bind; [apply keeps_resolve_autnums|]. intros routes'.
  apply keeps_preserved. repeat preserves_step.
Qed.

Lemma keeps_get_data_by_set (name : string) :
  keeps (fun c => J (settings c) (_cache c)) (get_data_by_set name).
Proof.
  unfold get_data_by_set.
  apply keeps_bind; [apply keeps_preserved; auto with frame|]. intros c0.
  destruct (_is_cached c0 (KStr name)); [apply keeps_preserved; auto with frame|].
  cbv zeta.
  apply keeps_bind; [apply keeps_preserved; auto with frame|]. intros _.
  apply keeps_bind; [apply keeps_preserved; auto with frame|]. intros _.
  apply keeps_bind; [apply keeps_preserved; auto with frame|]. intros response.
  apply keeps_data_of_response.
Qed.

(** Every method keeps such a property. *)
Lemma every_method_keeps :
  every_method (fun A m => keeps (fun c => J (settings c) (_cache c)) m).
Proof.
  unfold every_method.
  split; [intros; apply keeps_preserved, preserves_connect|].
  split; [intros; apply keeps_preserved, preserves_set_sources|].
  split; [apply keeps_preserved, preserves_get_sources|].
  split; [apply keeps_get_routes_by_origin|].
  split; [apply keeps_get_data_by_set|].
  intros; apply keeps_preserved, preserves_get_members_by_set.
Qed.

End Invariant.

(** ** The cache over the life of a session *)

Lemma every_method_impl `{L : IPy} (P Q : forall A, M A -> Prop) :
  (forall A m, P A m -> Q A m) -> every_method P -> every_method Q.
Proof.
  intros H (H1 & H2 & H3 & H4 & H5 & H6). unfold every_method.
  repeat split; intros; apply H; auto.
Qed.

Lemma every_method_forall `{L : IPy} {X} (P : X -> forall A, M A -> Prop) :
  (forall x, every_method (P x)) -> every_method (fun A m => forall x, P x A m).
Proof.
  intros H. unfold every_method in *. repeat split; intros.
  - apply (proj1 (H x)).
  - apply (proj1 (proj2 (H x))).
  - apply (proj1 (proj2 (proj2 (H x)))).
  - apply (proj1 (proj2 (proj2 (proj2 (H x))))).
  - apply (proj1 (proj2 (proj2 (proj2 (proj2 (H x)))))).
  - apply (proj2 (proj2 (proj2 (proj2 (proj2 (H x)))))).
Qed.

(** X14.  No method changes the settings: [caching], [aggregate] and
    [ipv6] are as [__init__] left them after every call, whatever its
    outcome. *)
Theorem settings_never_change `{L : IPy} :
  every_method (fun A m => forall c, settings (snd (m c)) = settings c).
Proof.
  apply (every_method_impl
           (fun A m => forall sigma0, keeps (fun c => settings c = sigma0) m)).
  - intros A m H c. exact (H (settings c) c eq_refl).
  - apply (every_method_forall (fun sigma0 A m => keeps (fun c => settings c = sigma0) m)).
    intros sigma0. apply (every_method_keeps (fun sigma _ => sigma = sigma0)).
    intros; assumption.
Qed.

(** X15.  The cache is write-once: an entry that is in the cache is there,
    with the same [RouteSet], after every call of every method, whatever
    the outcome; nothing is evicted or overwritten. *)
Theorem cache_entries_stay `{L : IPy} :
  every_method (fun A m =>
    forall c k v, _cache c !! k = Some v -> _cache (snd (m c)) !! k = Some v).
Proof.
  apply (every_method_impl
           (fun A m => forall kv : key * RouteSet,
                         keeps (fun c => _cache c !! fst kv = Some (snd kv)) m)).
  - intros A m H c k v Hk. exact (H (k, v) c Hk).
  - apply (every_method_forall
             (fun (kv : key * RouteSet) A m =>
                keeps (fun c => _cache c !! fst kv = Some (snd kv)) m)).
    intros [k v]. apply (every_method_keeps (fun _ m => m !! k = Some v)).
    intros sigma m n routes Hk _ Hn. cbv beta in *.
    rewrite lookup_insert_ne; [exact Hk|]. intros <-. congruence.
Qed.

Lemma cache_entries_stay_witness :
  let c := session true [line "A13"; line "192.0.2.0/24"; line "C"; line "D";
                         line "A8"; line "AS65001"; line "C"; line "D"; line "D"] in
  let c1 := snd (get_routes_by_origin (VInt 65000) c) in
  let c2 := snd (get_data_by_set "AS-EXAMPLE" c1) in
  _cache c1 !! KInt 65000
  = Some {| aggregated := true; ip4 := [net_192_0_2_0]; ip6 := [] |}
  /\ _cache c2 !! KInt 65000
     = Some {| aggregated := true; ip4 := [net_192_0_2_0]; ip6 := [] |}
  /\ _cache c2 !! KInt 65001 = Some (RouteSet_new true).
Proof.
  intros c c1 c2.
  assert (H1 : _cache c1 !! KInt 65000
               = Some {| aggregated := true; ip4 := [net_192_0_2_0]; ip6 := [] |})
    by (vm_compute; reflexivity).
  split; [exact H1|]. split; [|vm_compute; reflexivity].
  exact (proj1 (proj2 (proj2 (proj2 (proj2 cache_entries_stay))))
           "AS-EXAMPLE" c1 _ _ H1).
Defined.

(** X16.  With caching disabled the cache is never written: after every
    call of every method it is what it was. *)
Theorem caching_disabled_cache_unchanged `{L : IPy} :
  every_method (fun A m =>
    forall c, caching c = false -> _cache (snd (m c)) = _cache c).
Proof.
  apply (every_method_impl
           (fun A m => forall m0 : gmap key RouteSet,
                         keeps (fun c => caching c = false /\ _cache c = m0) m)).
  - intros A m H c Hc. exact (proj2 (H (_cache c) c (conj Hc eq_refl))).
  - apply (every_method_forall
             (fun (m0 : gmap key RouteSet) A m =>
                keeps (fun c => caching c = false /\ _cache c = m0) m)).
    intros m0.
    apply (every_method_keeps (fun sigma m => fst (fst sigma) = false /\ m = m0)).
    intros sigma m n routes [Hf _] Ht _. congruence.
Qed.

Lemma caching_disabled_cache_unchanged_witness :
  let c := snd (connect (Connected None [line "C"; line "A13"; line "192.0.2.0/24";
                                         line "C"; line "D"])
                  (IRRClient_init "whois.radb.net" 43 false true true)) in
  fst (get_routes_by_origin (VInt 65000) c)
  = Ret (Some {| aggregated := true; ip4 := [net_192_0_2_0]; ip6 := [] |})
  /\ _cache (snd (get_routes_by_origin (VInt 65000) c)) = _cache c.
Proof.
  intros c. split; [vm_compute; reflexivity|].
  apply (proj1 (proj2 (proj2 (proj2 caching_disabled_cache_unchanged)))).
  reflexivity.
Defined.

(** X17.  No method writes a string key: the cache entry of every set
    name is, after every call of every method, what it was before.  On a
    session that starts from [__init__] no set name is ever cached. *)
Theorem set_names_never_cached `{L : IPy} :
  every_method (fun A m =>
    forall c name, _cache (snd (m c)) !! KStr name = _cache c !! KStr name).
Proof.
  apply (every_method_impl
           (fun A m => forall nv : string * option RouteSet,
                         keeps (fun c => _cache c !! KStr (fst nv) = snd nv) m)).
  - intros A m H c name. exact (H (name, _cache c !! KStr name) c eq_refl).
  - apply (every_method_forall
             (fun (nv : string * option RouteSet) A m =>
                keeps (fun c => _cache c !! KStr (fst nv) = snd nv) m)).
    intros [name v]. apply (every_method_keeps (fun _ m => m !! KStr name = v)).
    intros sigma m n routes Hk _ _. cbv beta in *.
    rewrite lookup_insert_ne by discriminate. exact Hk.
Qed.

(** X18.  A call of [get_routes_by_origin] for the integer [n] touches no
    cache entry but that of [n], and a call that raises or never returns
    stores nothing: the origin is cached only when both of its queries
    were answered and every prefix was read. *)
Theorem origin_call_cache_effect `{L : IPy} (origin : pyval) (n : Z) (c : IRRClient) :
  int_of origin = Some n ->
  let r := get_routes_by_origin origin c in
  (forall k, k <> KInt n -> _cache (snd r) !! k = _cache c !! k)
  /\ ((forall v, fst r <> Ret v) -> _cache (snd r) = _cache c).
Proof.
  intros Hn r. subst r.
  destruct (get_routes_by_origin_effect origin n c Hn) as [_ Hr].
  destruct (fst (get_routes_by_origin origin c)) as [v|e|].
  - destruct Hr as (routes & _ & ->). split.
    + intros k Hk. destruct (caching c); [|reflexivity].
      apply lookup_insert_ne. congruence.
    + intros H. exfalso. apply (H v). reflexivity.
  - rewrite Hr. split; reflexivity.
  - rewrite Hr. split; reflexivity.
Qed.

Lemma origin_call_cache_effect_witness :
  let c := session true [line "A12"; line "192.0.2.0/33"; line "C"] in
  fst (get_routes_by_origin (VInt 65000) c) = Raise ValueError
  /\ _cache (snd (get_routes_by_origin (VInt 65000) c)) = _cache c.
Proof.
  intros c.
  assert (H : fst (get_routes_by_origin (VInt 65000) c) = Raise ValueError)
    by (vm_compute; reflexivity).
  split; [exact H|].
  apply (proj2 (origin_call_cache_effect (VInt 65000) 65000 c eq_refl)).
  intros v Hv. rewrite H in Hv. discriminate.
Defined.

(** ** Tokens of a response *)

Lemma rstrip_all_space (t : string) :
  Str.rstrip t = EmptyString <-> all_space t = true.
Proof.
  induction t as [|a t IH]; cbn; [tauto|].
  destruct (Str.rstrip t) as [|b u] eqn:E.
  - destruct (Str.is_space a); cbn; [|split; discriminate].
    split; intros _; [apply IH|]; reflexivity.
  - split; [discriminate|]. intros H. apply andb_true_iff in H as [_ H].
    apply IH in H. discriminate.
Qed.

Lemma all_space_rstrip (t : string) : all_space (Str.rstrip t) = all_space t.
Proof.
  induction t as [|a t IH]; cbn; [reflexivity|].
  destruct (Str.rstrip t) as [|b u] eqn:E.
  - assert (Ht : all_space t = true) by (apply rstrip_all_space; exact E).
    rewrite Ht, andb_true_r. destruct (Str.is_space a) eqn:Ha; cbn;
      rewrite ?Ha; reflexivity.
  - cbn [all_space]. cbn [all_space] in IH. rewrite IH. reflexivity.
Qed.

Lemma is_space_upper_char (a : ascii) :
  Str.is_space (Str.upper_char a) = Str.is_space a.
Proof. destruct a as [[] [] [] [] [] [] [] []]; reflexivity. Qed.

Lemma all_space_upper (t : string) : all_space (Str.upper t) = all_space t.
Proof.
  induction t as [|a t IH]; cbn; [reflexivity|].
  rewrite is_space_upper_char, IH. reflexivity.
Qed.

Lemma split_go_all_space (t : string) :
  all_space t = true <-> Str.split_go t = (EmptyString, []).
Proof.
  induction t as [|a t IH]; cbn; [tauto|].
  destruct (Str.split_go t) as [u us]. destruct (Str.is_space a); cbn.
  - rewrite IH. split; intros H; inversion H; subst; [reflexivity|].
    destruct u; cbn in *; [subst; reflexivity | discriminate].
  - split; discriminate.
Qed.

(** [split] gives no token exactly for a string of whitespace. *)
Lemma split_nil (t : string) : Str.split t = [] <-> all_space t = true.
Proof.
  rewrite split_go_all_space. unfold Str.split.
  destruct (Str.split_go t) as [u us]. split.
  - destruct u; cbn; [intros ->; reflexivity | discriminate].
  - intros H. inversion H. reflexivity.
Qed.

Lemma autnums_of_length (tokens : list string) :
  forall autnums, autnums_of tokens = Some autnums -> length autnums = length tokens.
Proof.
  induction tokens as [|t ts IH]; intros autnums H; cbn in H.
  - inversion H. reflexivity.
  - destruct (Str.int _); [|discriminate].
    destruct (autnums_of ts) as [ns|]; [|discriminate].
    inversion H. cbn. rewrite (IH ns eq_refl). reflexivity.
Qed.

(** The body [_response] returns has no whitespace at its end. *)
Lemma _response_stripped (c c1 : IRRClient) (body : string) :
  _response c = (Ret (RStr body), c1) -> exists data, body = Str.rstrip data.
Proof.
  unfold _response. intros H.
  apply bind_Ret_inv in H as (l & c0 & _ & H).
  destruct (Str.rstrip l) as [|code rest]; [discriminate|].
  destruct (Ascii.eqb code "C"); [discriminate|].
  destruct (Ascii.eqb code "D");
    [apply bind_Ret_inv in H as (? & ? & _ & H);
     apply bind_Ret_inv in H as (? & ? & _ & H); discriminate|].
  destruct (Ascii.eqb code "E"); [discriminate|].
  destruct (Ascii.eqb code "F");
    [apply bind_Ret_inv in H as (? & ? & _ & H); discriminate|].
  destruct (Ascii.eqb code "A");
    [|apply bind_Ret_inv in H as (? & ? & _ & H); discriminate].
  destruct (Str.int rest) as [datalen|]; [|discriminate].
  apply bind_Ret_inv in H as (data & ? & _ & H).
  apply bind_Ret_inv in H as (? & ? & _ & H).
  apply bind_Ret_inv in H as (? & ? & _ & H).
  inversion H. exists data. reflexivity.
Qed.

(** A body that [_response] returns, if it is not empty, has a token. *)
Lemma _response_has_token (c c1 : IRRClient) (body : string) :
  _response c = (Ret (RStr body), c1) -> body <> EmptyString ->
  Str.split (Str.upper body) <> [].
Proof.
  intros H Hne Hnil. destruct (_response_stripped c c1 body H) as [data ->].
  apply split_nil in Hnil. rewrite all_space_upper, all_space_rstrip in Hnil.
  apply rstrip_all_space in Hnil. contradiction.
Qed.

Lemma fetched_response (name : string) (c c1 : IRRClient) (resp : response) :
  fetched name c resp c1 -> exists c0, _response c0 = (Ret resp, c1).
Proof.
  intros [_ H].
  apply bind_Ret_inv in H as (? & ? & _ & H).
  apply bind_Ret_inv in H as (? & c0 & _ & H).
  exists c0. exact H.
Qed.

(** X19.  What [get_data_by_set] returns when it returns a pair.  The
    tuple of members is empty only when the response was empty or a
    failure, together with the empty [RouteSet]; otherwise the tuple holds
    the integers of all the tokens of the uppercased response, in their
    order, and the object was taken for an as-set.  The branch that logs
    that nothing was returned is therefore never taken. *)
Theorem returned_members `{L : IPy} (name : string) (c c1 : IRRClient)
    (resp : response) (rs : RouteSet) (autnums : list Z) :
  fetched name c resp c1 ->
  fst (get_data_by_set name c) = Ret (Pair rs autnums) ->
  (truthy resp = false /\ autnums = [] /\ rs = RouteSet_new (aggregate c))
  \/ (exists body,
        resp = RStr body
        /\ autnums_of (Str.split (Str.upper body)) = Some autnums
        /\ autnums <> []
        /\ classify (Str.upper body) = as_set).
Proof.
  intros Hf H. rewrite (get_data_by_set_fetched name c resp c1 Hf) in H.
  destruct (fetched_response name c c1 resp Hf) as [c0 Hr].
  unfold data_of_response in H.
  destruct (truthy resp) eqn:Ht; cbn [negb] in H.
  - right. destruct resp as [b|body]; [discriminate|].
    exists body. split; [reflexivity|].
    assert (Hne : body <> EmptyString) by (intros ->; discriminate).
    pose proof (_response_has_token c0 c1 body Hr Hne) as Htok.
    destruct (autnums_of (Str.split (Str.upper body))) as [asns|] eqn:E;
      [|discriminate].
    pose proof (autnums_of_length _ _ E) as Hlen.
    rewrite (classify_autnums _ _ E) in H.
    destruct asns as [|asn rest].
    + destruct (Str.split (Str.upper body)); [contradiction | discriminate].
    + destruct (bind (logging Debug_is_as_set)
                  (fun _ =>
                     bind (resolve_autnums (asn :: rest)
                             (RouteSet_new (aggregate c)))
                       (fun routes =>
                          bind (logging (Debug_retrieved_from_asns
                                           (RouteSet_len routes)
                                           (length (asn :: rest))))
                            (fun _ => ret (Pair routes (asn :: rest))))) c1)
        as [r cx] eqn:E2.
      cbn [fst] in H. subst r.
      apply bind_Ret_inv in E2 as (? & ? & _ & E2).
      apply bind_Ret_inv in E2 as (routes & ? & _ & E2).
      apply bind_Ret_inv in E2 as (? & ? & _ & E2).
      inversion E2; subst.
      split; [reflexivity|]. split; [discriminate|].
      apply (classify_autnums _ _ E).
  - left. cbn in H. inversion H. auto.
Qed.

Lemma returned_members_witness :
  let c := session true [line "A16"; line "as65000 AS65001"; line "C";
                         line "D"; line "D"; line "D"; line "D"] in
  fst (get_data_by_set "AS-EXAMPLE" c)
  = Ret (Pair (RouteSet_new true) [65000; 65001])
  /\ autnums_of (Str.split (Str.upper "as65000 AS65001")) = Some [65000; 65001].
Proof.
  intros c.
  assert (H : fst (get_data_by_set "AS-EXAMPLE" c)
              = Ret (Pair (RouteSet_new true) [65000; 65001]))
    by (vm_compute; reflexivity).
  split; [exact H|].
  pose (c1 := snd ((logging (Debug_fetching_routes "AS-EXAMPLE") ;;
                    _send ("!i" +:+ "AS-EXAMPLE" +:+ ",1" +:+ LF) ;;
                    _response) c)).
  assert (Hf : fetched "AS-EXAMPLE" c (RStr "as65000 AS65001") c1)
    by (split; vm_compute; reflexivity).
  destruct (returned_members "AS-EXAMPLE" c c1 (RStr "as65000 AS65001")
              (RouteSet_new true) [65000; 65001] Hf H)
    as [(Ht & _) | (body & Hb & Ha & _)]; [discriminate|].
  inversion Hb; subst body. exact Ha.
Defined.

(** ** An as-set whose members are cached *)

Lemma resolve_autnums_cached `{L : IPy} (autnums : list Z) (c : IRRClient) :
  caching c = true ->
  (forall asn, In asn autnums -> is_Some (_cache c !! KInt asn)) ->
  forall routes, snd (resolve_autnums autnums routes c) = c.
Proof.
  intros Hc. induction autnums as [|asn rest IH]; intros Hall routes;
    cbn [resolve_autnums]; [reflexivity|].
  destruct (Hall asn (or_introl eq_refl)) as [rs Hk].
  rewrite (bind_Ret _ _ _ _ _ (get_routes_by_origin_hit (VInt asn) asn rs c eq_refl Hc Hk)).
  unfold bind at 1, lift.
  destruct (RouteSet_add_all routes _) as [routes'| e |]; try reflexivity.
  apply IH. intros a Ha. apply Hall. right. exact Ha.
Qed.

(** X20.  An as-set whose members are all in the cache costs one round
    trip: after the members query and its response, [get_data_by_set]
    writes nothing more to the connection, reads nothing more from it and
    leaves the cache as it is. *)
Theorem as_set_of_cached_members `{L : IPy} (name body : string)
    (c c1 : IRRClient) (autnums : list Z) :
  fetched name c (RStr body) c1 ->
  autnums_of (Str.split (Str.upper body)) = Some autnums ->
  caching c = true ->
  (forall asn, In asn autnums -> is_Some (_cache c !! KInt asn)) ->
  s (snd (get_data_by_set name c)) = s c1
  /\ f (snd (get_data_by_set name c)) = f c1
  /\ _cache (snd (get_data_by_set name c)) = _cache c.
Proof.
  intros Hf Ha Hc Hall.
  assert (Hst : store c1 = store c).
  { destruct Hf as [_ Hf].
    assert (P : preserves store
                  (logging (Debug_fetching_routes name) ;;
                   _send ("!i" +:+ name +:+ ",1" +:+ LF) ;; _response))
      by repeat preserves_step.
    specialize (P c). rewrite Hf in P. exact P. }
  destruct (store_eq c c1 Hst) as (_ & Hcache & Hc1).
  rewrite (get_data_by_set_fetched name c (RStr body) c1 Hf).
  remember (data_of_response name (RouteSet_new (aggregate c)) (RStr body) c1)
    as p eqn:Ep.
  unfold data_of_response in Ep.
  destruct (negb (truthy (RStr body))); [subst p; cbn; auto|].
  rewrite Ha, (classify_autnums _ _ Ha) in Ep.
  destruct autnums as [|asn rest]; [subst p; cbn; auto|].
  unfold bind at 1 in Ep. cbn [logging] in Ep.
  set (c2 := with_log (log c1 ++ [Debug_is_as_set]) c1) in Ep.
  assert (R : snd (resolve_autnums (asn :: rest) (RouteSet_new (aggregate c)) c2) = c2).
  { apply resolve_autnums_cached; [cbn; congruence|].
    intros a Hin. cbn. rewrite Hcache. apply Hall. exact Hin. }
  unfold bind at 1 in Ep.
  destruct (resolve_autnums (asn :: rest) (RouteSet_new (aggregate c)) c2)
    as [[routes|e|] c3]; cbn [snd] in R; subst c3 p; cbn; auto.
Qed.

Lemma as_set_of_cached_members_witness :
  let c0 := session true [line "D"; line "D"; line "A8"; line "AS65000"; line "C";
                          line "A6"] in
  let c := snd (get_routes_by_origin (VInt 65000) c0) in
  let r := get_data_by_set "AS-EXAMPLE" c in
  fst r = Ret (Pair (RouteSet_new true) [65000])
  /\ commands (snd r)
     = [line "!!"; line "!nirrpt-ng"; line "!gAS65000"; line "!6AS65000";
        line "!iAS-EXAMPLE,1"]
  /\ f (snd r) = Some [line "A6"].
Proof.
  intros c0 c r. split; [vm_compute; reflexivity|].
  pose (c1 := snd ((logging (Debug_fetching_routes "AS-EXAMPLE") ;;
                    _send ("!i" +:+ "AS-EXAMPLE" +:+ ",1" +:+ LF) ;;
                    _response) c)).
  assert (Hf : fetched "AS-EXAMPLE" c (RStr "AS65000") c1)
    by (split; vm_compute; reflexivity).
  assert (Hall : forall asn, In asn [65000] -> is_Some (_cache c !! KInt asn)).
  { intros asn [<- | []]. exists (RouteSet_new true). vm_compute. reflexivity. }
  destruct (as_set_of_cached_members "AS-EXAMPLE" "AS65000" c c1 [65000] Hf
              eq_refl ltac:(vm_compute; reflexivity) Hall) as (Hs & Hfile & _).
  unfold commands. subst r. rewrite Hs, Hfile. split; vm_compute; reflexivity.
Defined.

(** ** Token lists *)

(** X21.  [set_sources] and [get_members_by_set] return [False] or a
    list with at least one token, never an empty list. *)
Theorem token_lists_not_empty (sources name : string) (recursive : bool)
    (c : IRRClient) (tokens : list string) :
  (fst (set_sources sources c) = Ret (Some tokens) -> tokens <> [])
  /\ (fst (get_members_by_set name recursive c) = Ret (Some tokens) -> tokens <> []).
Proof.
  assert (G : forall (g : list string -> list string) (m : M bool) (c0 : IRRClient),
             (forall l, g l = [] -> l = []) ->
             fst (bind m (fun _ =>
                    bind _response (fun results =>
                      if negb (truthy results) then ret None
                      else match results with
                           | RStr body => ret (Some (g (Str.split body)))
                           | RBool _ => raise AttributeError
                           end)) c0) = Ret (Some tokens) ->
             tokens <> []).
  { intros g m c0 Hg H.
    destruct (bind m _ c0) as [r cx] eqn:E. cbn [fst] in H. subst r.
    apply bind_Ret_inv in E as (? & c1 & _ & E).
    apply bind_Ret_inv in E as (results & c2 & Hr & E).
    destruct results as [b|body]; [destruct b; discriminate|].
    destruct body as [|a body']; [discriminate|].
    cbn [truthy Str.truthy negb] in E. unfold ret in E.
    assert (Ht : g (Str.split (String a body')) = tokens) by congruence.
    intros Hnil. rewrite Hnil in Ht. apply Hg in Ht.
    destruct (_response_stripped c1 c2 _ Hr) as [data Hd].
    apply split_nil in Ht. rewrite Hd, all_space_rstrip in Ht.
    apply rstrip_all_space in Ht. rewrite Ht in Hd. discriminate. }
  split.
  - unfold set_sources. apply (G (fun l => l)). auto.
  - unfold get_members_by_set. unfold bind at 1. cbn [logging].
    apply (G remove_dups).
    intros l Hl. destruct l as [|x l]; [reflexivity|].
    assert (Hx : x ∈ remove_dups (x :: l))
      by (apply elem_of_remove_dups; left).
    rewrite Hl in Hx. apply elem_of_nil in Hx. contradiction.
Qed.

Lemma token_lists_not_empty_witness :
  fst (set_sources "RADB" (session true [line "A5"; line "RADB"; line "C"]))
  = Ret (Some ["RADB"])
  /\ ["RADB"] <> ([] : list string).
Proof.
  assert (H : fst (set_sources "RADB" (session true [line "A5"; line "RADB"; line "C"]))
              = Ret (Some ["RADB"])) by (vm_compute; reflexivity).
  split; [exact H|].
  exact (proj1 (token_lists_not_empty "RADB" "" false _ ["RADB"]) H).
Defined.

(** ** A length that is no number, and a failed reconnect *)

(** X22.  A header [A] whose length is not a decimal number, or is
    missing, is not reported as a parse failure: [_response] raises
    [ValueError], with the header line consumed and nothing logged. *)
Theorem response_bad_length_raises (c : IRRClient) (h text : string)
    (rest : list string) :
  f c = Some (h :: rest) ->
  Str.rstrip h = String "A" text ->
  Str.int text = None ->
  fst (_response c) = Raise ValueError
  /\ f (snd (_response c)) = Some rest
  /\ log (snd (_response c)) = log c.
Proof.
  intros Hf Hh Hint. unfold _response, bind, _readline. rewrite Hf, Hh.
  cbn [Ascii.eqb Bool.eqb]. rewrite Hint. repeat split; reflexivity.
Qed.

Lemma response_bad_length_raises_witness :
  fst (_response (session true [line "A"; line "C"])) = Raise ValueError
  /\ fst (_response (session true [line "A12 bytes"; line "C"])) = Raise ValueError.
Proof.
  split.
  - apply (response_bad_length_raises _ (line "A") "" [line "C"]); reflexivity.
  - apply (response_bad_length_raises _ (line "A12 bytes") "12 bytes" [line "C"]);
      reflexivity.
Defined.

(** X23.  A reconnect that fails on a client that holds a socket returns
    [False], drops the socket and keeps the old stream and the store;
    the next query then raises [AttributeError] at its write. *)
Theorem failed_reconnect_drops_socket (msg : string) (c : IRRClient) (sk : socket) :
  s c = Some sk ->
  let c' := snd (connect (SocketError msg) c) in
  fst (connect (SocketError msg) c) = Ret false
  /\ s c' = None
  /\ f c' = f c
  /\ store c' = store c
  /\ fst (get_sources c') = Raise AttributeError.
Proof.
  intros Hs c'. subst c'.
  unfold connect, bind, self, logging, ret. cbn. rewrite Hs. cbn.
  split; [reflexivity|]. split; [reflexivity|]. split; [reflexivity|].
  split; [reflexivity|].
  reflexivity.
Qed.

Lemma failed_reconnect_drops_socket_witness :
  let c := session true [line "A5"; line "RADB"; line "C"] in
  let c' := snd (connect (SocketError "Connection refused") c) in
  fst (connect (SocketError "Connection refused") c) = Ret false
  /\ f c' = Some [line "A5"; line "RADB"; line "C"]
  /\ fst (get_sources c') = Raise AttributeError.
Proof.
  intros c c'.
  destruct (failed_reconnect_drops_socket "Connection refused" c
              {| sent := [line "!!"; line "!nirrpt-ng"]; write_error := None |}
              eq_refl) as (H1 & _ & H3 & _ & H5).
  split; [exact H1|]. split; [exact H3 | exact H5].
Defined.
